(** * omega: search, download and embed video clips

    A shallow embedding of [video_utils.py] and [main.py].

    The three collaborators of the program (the yt-dlp search and download
    calls, the ImageBind embedding model) and the operating system (the wall
    clock, temporary files) are not part of the repository.  They are
    gathered in a record [World] of oracles over which the general theorems
    quantify; the program threads a [state] holding the chronological log
    of its calls to them.

    Python values are represented as follows.
    - [int] is [Z]; [str] is [string]; [Optional[X]] is [option X].
    - [float] is [Q]: the finite floats are rationals and are compared as
      such.  NaN and the infinities are left out, and [num_videos * 1.5] is
      the exact product, which is what the float product is whenever
      [3 * |num_videos| < 2^53].
    - Exceptions are values of [exn]; a computation ends in [Return] or
      [Raise]. *)

From Stdlib Require Import String Ascii List ZArith QArith Qround Lia Bool DecimalString.
Import ListNotations.

Local Open Scope string_scope.

(** ** Python primitives *)

Module Py.

Definition float : Type := Q.

(** A JSON number as yt-dlp reports it. *)
Inductive number : Type :=
| Int (z : Z)
| Float (q : float).

(** [int(x)]: a float is truncated towards zero. *)
Definition int_of_float (q : float) : Z := Z.quot (Qnum q) (Zpos (Qden q)).

Definition int (x : number) : Z :=
  match x with
  | Int z => z
  | Float q => int_of_float q
  end.

(** [float(n)] of an int, as pydantic does for a [float] field. *)
Definition float_of_int (z : Z) : float := inject_Z z.

(** [math.floor] and [math.ceil]. *)
Definition floor (q : float) : Z := Qfloor q.

Definition ceil (q : float) : Z := Qceiling q.

(** Truth value testing. *)
Definition truthy_number (x : number) : bool :=
  match x with
  | Int z => negb (z =? 0)%Z
  | Float q => negb (Qnum q =? 0)%Z
  end.

Definition truthy_str (s : string) : bool :=
  match s with
  | EmptyString => false
  | String _ _ => true
  end.

Definition truthy_int (z : Z) : bool := negb (z =? 0)%Z.

(** [str(n)] and the [{n}] of an f-string. *)
Definition str_of_int (z : Z) : string := NilZero.string_of_int (Z.to_int z).

Definition str_of_nat (n : nat) : string := str_of_int (Z.of_nat n).

Definition str_of_opt (s : option string) : string :=
  match s with
  | None => "None"
  | Some s => s
  end.

(** [needle in hay] on [str]. *)
Fixpoint contains (needle hay : string) : bool :=
  if String.prefix needle hay then true
  else match hay with
       | EmptyString => false
       | String _ rest => contains needle rest
       end.

(** [any(p(x) for x in xs)]. *)
Definition any {A : Type} (p : A -> bool) (xs : list A) : bool := existsb p xs.

Definition LF : string := String "010"%char EmptyString.

End Py.

(** ** Exceptions, the outside world and the effect monad *)

Inductive exn : Type :=
| FakeVideoException (message : string)
| IPBlockedException (message : string)
| Exception (message : string).

(** [str(e)]. *)
Definition str_of_exn (e : exn) : string :=
  match e with
  | FakeVideoException m | IPBlockedException m | Exception m => m
  end.

Inductive result (A : Type) : Type :=
| Return (a : A)
| Raise (e : exn).

Arguments Return {A} a.
Arguments Raise {A} e.

(** A temporary file object; the n-th one created in a run is [n]. *)
Definition handle : Type := nat.

(** What [ydl.extract_info(search_query, download=False)] gives back: an
    entry of the ["entries"] list.  A field is [None] when the key is absent
    or holds [None]; for ["id"] and ["title"], which the program reads with
    [entry[...]], [None] stands for an absent key. *)
Module Entry.
Record t : Type := mk {
  id : option string;
  title : option string;
  description : option string;
  duration : option Py.number;
  view_count : option Z
}.
End Entry.

Inductive extract_reply : Type :=
| ExtractRaises (message : string)
| ExtractReturns (entries : option (list Entry.t)).

(** How the body of the [try] in [download_video] ends.
    - [DownloadRaises]: [ydl.download] or [os.stat] raises, and the
      temporary file can still be closed: it is at its path, or the
      [close] of this Python tolerates a path that is gone (3.12 on).
    - [DownloadRemoves]: one of them raises after the provider, which is
      told to overwrite the file, took it away from its path; the [close]
      of the file will then raise [unlink_error], a [FileNotFoundError]
      (Python up to 3.11).
    - [Downloaded]: the file is there with its size. *)
Inductive download_reply : Type :=
| DownloadRaises (message : string)
| DownloadRemoves (message : string) (unlink_error : string)
| Downloaded (st_size : N).

(** The error that closing the temporary file will raise, after this
    reply. *)
Definition unlink_error_of (reply : download_reply) : option string :=
  match reply with
  | DownloadRemoves _ unlink_error => Some unlink_error
  | _ => None
  end.

(** The value of [imagebind.embed]: two batches of vectors. *)
Module Embeddings.
Record t : Type := mk {
  video : list (list Py.float);
  description : list (list Py.float)
}.
End Embeddings.

Record World : Type := {
  (** the n-th reading of [time.time()] *)
  time_time : nat -> Py.float;
  (** [ydl.extract_info(search_query, download=False)] *)
  extract_info : string -> extract_reply;
  (** [temp_fileobj.name] *)
  tempfile_name : handle -> string;
  (** [ydl.download([video_url])] into the file, then [os.stat]; the
      arguments are the file, the url, ["download_ranges"] and ["proxy"] *)
  ydl_download : handle -> string -> option (Z * Z) -> option string -> download_reply;
  (** [imagebind.embed([description], [download_path])] *)
  imagebind_embed : string -> handle -> result Embeddings.t
}.

(** The calls the program makes to the outside, in the order it makes
    them. *)
Inductive event : Type :=
| EvExtractInfo (search_query : string)
| EvTime (now : Py.float)
| EvTempfile (h : handle)
| EvDownload (h : handle) (video_url : string)
    (download_ranges : option (Z * Z)) (proxy : option string)
| EvClose (h : handle)
| EvEmbed (description : string) (h : handle)
| EvPrint (line : string).

Record state : Type := mkState {
  log : list event;
  next_handle : nat;
  clock_reads : nat
}.

Definition initial : state := mkState [] 0 0.

Definition M (A : Type) : Type := state -> result A * state.

Definition ret {A : Type} (a : A) : M A := fun st => (Return a, st).

Definition bind {A B : Type} (c : M A) (k : A -> M B) : M B :=
  fun st =>
    match c st with
    | (Return a, st') => k a st'
    | (Raise e, st') => (Raise e, st')
    end.

Definition raise {A : Type} (e : exn) : M A := fun st => (Raise e, st).

(** [try: body except Exception as e: handler(e)]. *)
Definition try_except {A : Type} (body : M A) (handler : exn -> M A) : M A :=
  fun st =>
    match body st with
    | (Return a, st') => (Return a, st')
    | (Raise e, st') => handler e st'
    end.

(** [try: body finally: cleanup]. *)
Definition try_finally {A : Type} (body : M A) (cleanup : M unit) : M A :=
  fun st =>
    match body st with
    | (r, st') =>
        match cleanup st' with
        | (Return _, st'') => (r, st'')
        | (Raise e, st'') => (Raise e, st'')
        end
    end.

Definition emit (ev : event) : M unit :=
  fun st => (Return tt, mkState (log st ++ [ev]) (next_handle st) (clock_reads st)).

Definition print (line : string) : M unit := emit (EvPrint line).

Definition lift {A : Type} (r : result A) : M A := fun st => (r, st).

Declare Scope py_scope.
Delimit Scope py_scope with py.
Notation "x <- c ;; k" := (bind c (fun x => k))
  (at level 100, c at next level, right associativity) : py_scope.
Notation "c ;; k" := (bind c (fun _ => k))
  (at level 100, right associativity) : py_scope.
Local Open Scope py_scope.

(** ** video_utils.py *)

Module VideoUtils.

Definition MAX_DURATION : Z := 120.

Module YoutubeResult.
Record t : Type := mk {
  video_id : string;
  title : string;
  description : option string;
  length : Z;
  views : Z
}.
End YoutubeResult.

Module VideoMetadata.
Record t : Type := mk {
  video_id : string;
  description : string;
  views : Z;
  start_time : Py.float;
  end_time : Py.float;
  video_emb : list Py.float;
  description_emb : list Py.float
}.
End VideoMetadata.

Definition is_valid_id (youtube_id : option string) : bool :=
  match youtube_id with
  | None => false
  | Some s => (String.length s =? 11)%nat
  end.

(** [entry["k"]]. *)
Definition getitem (k : string) (v : option string) : result string :=
  match v with
  | Some s => Return s
  | None => Raise (Exception ("'" ++ k ++ "'"))
  end.

(** One element of the list comprehension of [search_videos]. *)
Definition youtube_result_of_entry (entry : Entry.t) : result YoutubeResult.t :=
  match getitem "id" (Entry.id entry) with
  | Raise e => Raise e
  | Return video_id =>
      match getitem "title" (Entry.title entry) with
      | Raise e => Raise e
      | Return title =>
          Return (YoutubeResult.mk
            video_id
            title
            (Entry.description entry)
            (match Entry.duration entry with
             | Some d => if Py.truthy_number d then Py.int d else MAX_DURATION
             | None => MAX_DURATION
             end)
            (match Entry.view_count entry with
             | Some v => if Py.truthy_int v then v else 0%Z
             | None => 0%Z
             end))
      end
  end.

Fixpoint comprehension (entries : list Entry.t) : result (list YoutubeResult.t) :=
  match entries with
  | [] => Return []
  | entry :: rest =>
      match youtube_result_of_entry entry with
      | Raise e => Raise e
      | Return y =>
          match comprehension rest with
          | Raise e => Raise e
          | Return ys => Return (y :: ys)
          end
      end
  end.

Definition search_query_of (max_results : Z) (query : string) : string :=
  "ytsearch" ++ Py.str_of_int max_results ++ ":" ++ query.

Definition call_extract_info (w : World) (search_query : string) : M (option (list Entry.t)) :=
  emit (EvExtractInfo search_query) ;;
  match extract_info w search_query with
  | ExtractRaises message => raise (Exception message)
  | ExtractReturns entries => ret entries
  end.

Definition search_videos (w : World) (query : string) (max_results : Z)
  : M (list YoutubeResult.t) :=
  try_except
    (let search_query := search_query_of max_results query in
     result <- call_extract_info w search_query ;;
     match result with
     | Some ((_ :: _) as entries) => lift (comprehension entries)
     | _ => ret []
     end)
    (fun e =>
       print ("Error searching for videos: " ++ str_of_exn e) ;;
       ret []).

Definition NamedTemporaryFile : M handle :=
  fun st =>
    let h := next_handle st in
    (Return h, mkState (log st ++ [EvTempfile h]) (S h) (clock_reads st)).

(** [temp_fileobj.close()]: the file object is closed, then its path is
    unlinked; [unlink_error] is what the unlink raises when the path is
    gone, [None] for a file that is at its path. *)
Definition close (h : handle) (unlink_error : option string) : M unit :=
  emit (EvClose h) ;;
  match unlink_error with
  | None => ret tt
  | Some message => raise (Exception message)
  end.

(** The body of the [try]: [ydl.download([video_url])], then
    [os.stat(temp_fileobj.name).st_size]. *)
Definition call_download (w : World) (h : handle) (video_url : string)
    (download_ranges : option (Z * Z)) (proxy : option string) : M N :=
  emit (EvDownload h video_url download_ranges proxy) ;;
  match ydl_download w h video_url download_ranges proxy with
  | DownloadRaises message => raise (Exception message)
  | DownloadRemoves message _ => raise (Exception message)
  | Downloaded st_size => ret st_size
  end.

Definition fake_video_phrases : list string :=
  ["Video unavailable"; "is not a valid URL"; "Incomplete YouTube ID"].

Definition is_blocked_message (s : string) : bool :=
  Py.contains "Your IP is likely being blocked by Youtube" s
  || Py.contains "Requested format is not available" s.

Definition is_fake_video_message (s : string) : bool :=
  Py.any (fun fake_vid_msg => Py.contains fake_vid_msg s) fake_video_phrases.

Definition video_url_of (video_id : option string) : string :=
  "https://www.youtube.com/watch?v=" ++ Py.str_of_opt video_id.

(** [ydl_opts["download_ranges"]], set when both bounds are given. *)
Definition download_ranges_of (start end_ : option Z) : option (Z * Z) :=
  match start, end_ with
  | Some s, Some e => Some (s, e)
  | _, _ => None
  end.

Definition download_video (w : World) (video_id : option string)
    (start end_ : option Z) (proxy : option string) : M (option handle) :=
  if negb (is_valid_id video_id) then
    raise (FakeVideoException ("Invalid video ID: " ++ Py.str_of_opt video_id))
  else
    let video_url := video_url_of video_id in
    temp_fileobj <- NamedTemporaryFile ;;
    let download_ranges := download_ranges_of start end_ in
    try_except
      (st_size <- call_download w temp_fileobj video_url download_ranges proxy ;;
       if (st_size =? 0)%N then
         print ("Error downloading video: " ++ tempfile_name w temp_fileobj ++ " is empty") ;;
         close temp_fileobj None ;;
         ret None
       else ret (Some temp_fileobj))
      (fun e =>
         close temp_fileobj
           (unlink_error_of
              (ydl_download w temp_fileobj video_url download_ranges proxy)) ;;
         if is_blocked_message (str_of_exn e) then
           raise (IPBlockedException (str_of_exn e))
         else if is_fake_video_message (str_of_exn e) then
           raise (FakeVideoException (str_of_exn e))
         else
           print ("Error downloading video: " ++ str_of_exn e) ;;
           ret None).

Definition get_description (yt : YoutubeResult.t) : string :=
  let description := YoutubeResult.title yt in
  match YoutubeResult.description yt with
  | Some body =>
      if Py.truthy_str body then description ++ Py.LF ++ Py.LF ++ body
      else description
  | None => description
  end.

(** A value as [__repr_args__] hands it to [repr]. *)
Inductive repr_value : Type :=
| RStr (s : string)
| RInt (z : Z)
| RFloat (q : Py.float)
| RFloats (l : list Py.float)
| RStrs (l : list string).

Definition exclude_args : list string := ["video_emb"; "description_emb"].

(** [a in exclude_args]. *)
Definition excluded (a : string) : bool := existsb (String.eqb a) exclude_args.

(** [VideoMetadata.__repr_args__]; [parent_args] is the value of
    [super().__repr_args__()], the pairs that pydantic lists. *)
Definition repr_args (parent_args : list (string * repr_value))
  : list (string * repr_value) :=
  (filter (fun av => negb (excluded (fst av))) parent_args
   ++ map (fun a => (a, RStrs ["..."])) exclude_args)%list.

End VideoUtils.

(** ** main.py *)

Module Main.
Import VideoUtils.

(** [time.time()]. *)
Definition time (w : World) : M Py.float :=
  fun st =>
    let now := time_time w (clock_reads st) in
    (Return now, mkState (log st ++ [EvTime now]) (next_handle st) (S (clock_reads st))).

Definition call_embed (w : World) (description : string) (download_path : handle)
  : M Embeddings.t :=
  emit (EvEmbed description download_path) ;;
  lift (imagebind_embed w description download_path).

(** [batch[0].tolist()]. *)
Definition first_row (batch : list (list Py.float)) : M (list Py.float) :=
  match batch with
  | row :: _ => ret row
  | [] => raise (Exception "index 0 is out of bounds for dimension 0 with size 0")
  end.

(** The body of the [try] of one iteration; its value is [video_metas]
    after the [append]. *)
Definition embed_and_append (w : World) (result : YoutubeResult.t) (start : Py.float)
    (download_path : handle) (video_metas : list VideoMetadata.t)
  : M (list VideoMetadata.t) :=
  let description := get_description result in
  embeddings <- call_embed w description download_path ;;
  video_emb <- first_row (Embeddings.video embeddings) ;;
  description_emb <- first_row (Embeddings.description embeddings) ;;
  ret (video_metas ++
       [VideoMetadata.mk
          (YoutubeResult.video_id result)
          description
          (YoutubeResult.views result)
          start
          (Py.float_of_int MAX_DURATION)
          video_emb
          description_emb])%list.

(** One iteration of the loop, up to the test of [len(video_metas)]; its
    value is [video_metas] as the iteration leaves it. *)
Definition loop_body (w : World) (result : YoutubeResult.t)
    (video_metas : list VideoMetadata.t) : M (list VideoMetadata.t) :=
  start <- time w ;;
  download_path <-
    download_video w
      (Some (YoutubeResult.video_id result))
      (Some 0%Z)
      (Some (Z.min (YoutubeResult.length result) MAX_DURATION))
      None ;;
  match download_path with
  | Some download_path =>
      try_finally
        (embed_and_append w result start download_path video_metas)
        (close download_path None)
  | None => ret video_metas
  end.

(** [for result in results: ...], with [video_metas] as built so far. *)
Fixpoint for_result_in (w : World) (num_videos : Z) (results : list YoutubeResult.t)
    (video_metas : list VideoMetadata.t) {struct results} : M (list VideoMetadata.t) :=
  match results with
  | [] => ret video_metas
  | result :: rest =>
      video_metas <- loop_body w result video_metas ;;
      if (Z.of_nat (List.length video_metas) =? num_videos)%Z then ret video_metas
      else for_result_in w num_videos rest video_metas
  end.

(** [int(num_videos * 1.5)]. *)
Definition request_count (num_videos : Z) : Z :=
  Py.int_of_float (Py.float_of_int num_videos * 1.5)%Q.

Definition search_and_embed_videos (w : World) (query : string) (num_videos : Z)
  : M (list VideoMetadata.t) :=
  results <- search_videos w query (request_count num_videos) ;;
  print ("search_results " ++ Py.str_of_nat (List.length results)) ;;
  for_result_in w num_videos results [].

End Main.

(** ** Live temporary files along a log *)

Definition is_time (ev : event) : bool :=
  match ev with
  | EvTime _ => true
  | _ => false
  end.

Definition is_search (ev : event) : bool :=
  match ev with
  | EvExtractInfo _ => true
  | _ => false
  end.

(** The files that are open after [ev], given those open before it. *)
Definition step_live (lv : list handle) (ev : event) : list handle :=
  match ev with
  | EvTempfile h => h :: lv
  | EvClose h => filter (fun h' => negb (h' =? h)%nat) lv
  | _ => lv
  end.

Definition live_from (lv : list handle) (t : list event) : list handle :=
  fold_left step_live t lv.

Definition live (t : list event) : list handle := live_from [] t.

(** A stretch of log that starts with the files [lv] open keeps at most one
    file open, reads the clock (the start of an iteration) only when none
    is, and ends with none. *)
Fixpoint scoped (lv : list handle) (t : list event) : Prop :=
  match t with
  | [] => lv = []
  | ev :: t' =>
      (is_time ev = true -> lv = [])
      /\ (List.length (step_live lv ev) <= 1)%nat
      /\ scoped (step_live lv ev) t'
  end.

(** [l1] is [l2] with some elements left out, the order kept. *)
Inductive subseq {A : Type} : list A -> list A -> Prop :=
| subseq_nil : subseq [] []
| subseq_skip (x : A) (l1 l2 : list A) : subseq l1 l2 -> subseq l1 (x :: l2)
| subseq_take (x : A) (l1 l2 : list A) : subseq l1 l2 -> subseq (x :: l1) (x :: l2).

(** The record [m] has behind it, in the stretch of log [evs], a download
    of its video that left a file that is not empty, and an embedding of
    its description with that file whose first rows are its vectors. *)
Definition backed (w : World) (evs : list event) (m : VideoUtils.VideoMetadata.t) : Prop :=
  exists h e st_size embeddings,
    let url := VideoUtils.video_url_of (Some (VideoUtils.VideoMetadata.video_id m)) in
    In (EvDownload h url (Some (0%Z, e)) None) evs
    /\ ydl_download w h url (Some (0%Z, e)) None = Downloaded st_size
    /\ st_size <> 0%N
    /\ In (EvEmbed (VideoUtils.VideoMetadata.description m) h) evs
    /\ imagebind_embed w (VideoUtils.VideoMetadata.description m) h = Return embeddings
    /\ hd_error (Embeddings.video embeddings) = Some (VideoUtils.VideoMetadata.video_emb m)
    /\ hd_error (Embeddings.description embeddings)
       = Some (VideoUtils.VideoMetadata.description_emb m).

(** ** Sample runs *)

Module Scenario.
Import VideoUtils.

Definition candidate (video_id : string) (duration : Z) : Entry.t :=
  Entry.mk (Some video_id) (Some ("clip " ++ video_id)) None
    (Some (Py.Int duration)) (Some 1000%Z).

(** Twelve candidates; the third one lasts 50 seconds. *)
Definition twelve : list Entry.t :=
  [candidate "omegavid001" 300; candidate "omegavid002" 95;
   candidate "omegavid003" 50; candidate "omegavid004" 1200;
   candidate "omegavid005" 120; candidate "omegavid006" 240;
   candidate "omegavid007" 61; candidate "omegavid008" 600;
   candidate "omegavid009" 30; candidate "omegavid010" 180;
   candidate "omegavid011" 75; candidate "omegavid012" 900].

(** The clock of a day in November 2023; every search returns [entries],
    every download and every embedding succeeds. *)
Definition all_succeed (entries : list Entry.t) : World := {|
  time_time := fun n => inject_Z (1700000000 + Z.of_nat n);
  extract_info := fun _ => ExtractReturns (Some entries);
  tempfile_name := fun h => "/tmp/tmp" ++ Py.str_of_nat h ++ ".mp4";
  ydl_download := fun _ _ _ _ => Downloaded 4096;
  imagebind_embed := fun _ _ => Return (Embeddings.mk [[1#2; 1#4]] [[1#8; 1#16]])
|}.

(** Every download fails with a message that holds a phrase of each
    kind. *)
Definition both_phrases : string :=
  "ERROR: [youtube] omegavid001: Video unavailable. Requested format is not available".

Definition download_fails (message : string) : World := {|
  time_time := fun n => inject_Z (1700000000 + Z.of_nat n);
  extract_info := fun _ => ExtractReturns (Some twelve);
  tempfile_name := fun h => "/tmp/tmp" ++ Py.str_of_nat h ++ ".mp4";
  ydl_download := fun _ _ _ _ => DownloadRaises message;
  imagebind_embed := fun _ _ => Return (Embeddings.mk [[1#2; 1#4]] [[1#8; 1#16]])
|}.

(** Every download fails with a message of no known kind, after the
    provider took the temporary file away; closing the file then raises. *)
Definition unclassified : string :=
  "ERROR: [youtube] omegavid001: unable to download video data: HTTP Error 403: Forbidden".

Definition missing_file : string :=
  "[Errno 2] No such file or directory: '/tmp/tmp0.mp4'".

Definition download_removes (message unlink_error : string) : World := {|
  time_time := fun n => inject_Z (1700000000 + Z.of_nat n);
  extract_info := fun _ => ExtractReturns (Some twelve);
  tempfile_name := fun h => "/tmp/tmp" ++ Py.str_of_nat h ++ ".mp4";
  ydl_download := fun _ _ _ _ => DownloadRemoves message unlink_error;
  imagebind_embed := fun _ _ => Return (Embeddings.mk [[1#2; 1#4]] [[1#8; 1#16]])
|}.

(** The search provider fails. *)
Definition search_fails : World := {|
  time_time := fun n => inject_Z (1700000000 + Z.of_nat n);
  extract_info := fun _ => ExtractRaises "ERROR: Unable to download API page";
  tempfile_name := fun h => "/tmp/tmp" ++ Py.str_of_nat h ++ ".mp4";
  ydl_download := fun _ _ _ _ => Downloaded 4096;
  imagebind_embed := fun _ _ => Return (Embeddings.mk [[1#2; 1#4]] [[1#8; 1#16]])
|}.

(** A single entry whose duration and view count are there and zero. *)
Definition zero_fields : Entry.t :=
  Entry.mk (Some "omegavid001") (Some "clip omegavid001") None
    (Some (Py.Int 0)) (Some 0%Z).

(** The value of a run that returns; the empty list for one that
    raises. *)
Definition returned {A : Type} (r : result (list A) * state) : list A :=
  match fst r with
  | Return out => out
  | Raise _ => []
  end.

(** [python main.py]: the query "omega" and a target of 8. *)
Definition main_run : result (list VideoMetadata.t) * state :=
  Main.search_and_embed_videos (all_succeed twelve) "omega" 8 initial.

(** An entry without a title, and one that lasts half a second. *)
Definition untitled : Entry.t :=
  Entry.mk (Some "omegavid013") None None (Some (Py.Int 40)) (Some 5%Z).

Definition half_second : Entry.t :=
  Entry.mk (Some "omegavid014") (Some "clip omegavid014") None
    (Some (Py.Float (1 # 2))) (Some 5%Z).

(** A run whose downloads are all refused, and a run whose first
    candidate has an id of five characters. *)
Definition blocked_run : result (list VideoMetadata.t) * state :=
  Main.search_and_embed_videos (download_fails both_phrases) "omega" 8 initial.

Definition short_id : Entry.t :=
  Entry.mk (Some "omega") (Some "clip omega") None (Some (Py.Int 40)) (Some 5%Z).

Definition invalid_run : result (list VideoMetadata.t) * state :=
  Main.search_and_embed_videos
    (all_succeed [short_id; candidate "omegavid001" 300]) "omega" 8 initial.

(** A list of pairs that names an embedding first. *)
Definition sample_repr_args : list (string * repr_value) :=
  [("video_emb", RFloats [1#2; 1#4]); ("video_id", RStr "omegavid001");
   ("views", RInt 1000); ("description_emb", RFloats [1#8])].

End Scenario.

(** * Properties of video_utils.py *)

Import VideoUtils.

(** Unfold the effect monad and flatten the log of the resulting state. *)
Ltac run_monad :=
  unfold print, close, NamedTemporaryFile;
  unfold try_except, try_finally, bind, emit, lift, ret, raise;
  cbn [log next_handle clock_reads str_of_exn fst snd].

Ltac flatten_log := repeat rewrite <- app_assoc; cbn [app].

Section Truthiness.

Lemma truthy_number_float_zero (q : Py.float) :
  (q == 0)%Q -> Py.truthy_number (Py.Float q) = false.
Proof.
  unfold Qeq; simpl. intros H.
  rewrite Z.mul_1_r in H. rewrite H. reflexivity.
Qed.

End Truthiness.

Section SearchVideos.

Variable w : World.

Lemma comprehension_nth (entries : list Entry.t) :
  forall ys i e y,
    comprehension entries = Return ys ->
    nth_error entries i = Some e ->
    nth_error ys i = Some y ->
    youtube_result_of_entry e = Return y.
Proof.
  induction entries as [|e0 rest IH]; intros ys i e y Hc He Hy.
  - destruct i; discriminate.
  - simpl in Hc.
    destruct (youtube_result_of_entry e0) as [y0|] eqn:E0; [|discriminate].
    destruct (comprehension rest) as [ys0|] eqn:Er; [|discriminate].
    injection Hc as <-.
    destruct i as [|i]; simpl in He, Hy.
    + congruence.
    + eapply IH; eauto.
Qed.

Lemma search_videos_value (query : string) (max_results : Z) (st : state)
    (entries : list Entry.t) :
  extract_info w (search_query_of max_results query) = ExtractReturns (Some entries) ->
  fst (search_videos w query max_results st)
  = match comprehension entries with
    | Return ys => Return ys
    | Raise _ => Return []
    end.
Proof.
  intros H.
  unfold search_videos, call_extract_info. run_monad.
  rewrite H.
  destruct entries as [|e rest]; [reflexivity|].
  destruct (comprehension (e :: rest)); reflexivity.
Qed.

Lemma search_videos_never_raises (query : string) (max_results : Z) (st : state) :
  exists videos evs,
    search_videos w query max_results st
    = (Return videos,
       mkState (log st ++ EvExtractInfo (search_query_of max_results query) :: evs)
               (next_handle st) (clock_reads st))
    /\ Forall (fun ev => exists line, ev = EvPrint line) evs.
Proof.
  unfold search_videos, call_extract_info. run_monad.
  destruct (extract_info w (search_query_of max_results query)) as [message|[entries|]];
    cbn [log next_handle clock_reads str_of_exn].
  - exists [], [EvPrint ("Error searching for videos: " ++ message)].
    flatten_log. split; [reflexivity|]. repeat constructor. eauto.
  - destruct entries as [|e rest].
    + exists [], []. split; [reflexivity|constructor].
    + destruct (comprehension (e :: rest)) as [ys|ex]; cbn [log next_handle clock_reads].
      * exists ys, []. split; [reflexivity|constructor].
      * exists [], [EvPrint ("Error searching for videos: " ++ str_of_exn ex)].
        flatten_log. split; [reflexivity|]. repeat constructor. eauto.
  - exists [], []. split; [reflexivity|constructor].
Qed.

(** C7. When the search provider raises, [search_videos] prints the
    error and returns the empty list; nothing is raised to the caller. *)
Theorem search_videos_swallows_provider_failure :
  forall (query : string) (max_results : Z) (message : string) (st : state),
    extract_info w (search_query_of max_results query) = ExtractRaises message ->
    search_videos w query max_results st
    = (Return [],
       mkState (log st ++ [EvExtractInfo (search_query_of max_results query);
                           EvPrint ("Error searching for videos: " ++ message)])
               (next_handle st) (clock_reads st)).
Proof.
  intros query max_results message st H.
  unfold search_videos, call_extract_info. run_monad.
  rewrite H. cbn [log next_handle clock_reads str_of_exn].
  flatten_log. reflexivity.
Qed.

(** C10. The defaults of [search_videos] go by truth value: in the list
    it returns, the candidate of an entry whose duration is absent, [0] or
    [0.0] has length [MAX_DURATION] (120), and the candidate of an entry
    whose view count is absent or [0] has [0] views. *)
Theorem search_videos_defaults_by_truthiness :
  forall (query : string) (max_results : Z) (st : state)
         (entries : list Entry.t) (videos : list YoutubeResult.t)
         (i : nat) (entry : Entry.t) (video : YoutubeResult.t),
    extract_info w (search_query_of max_results query) = ExtractReturns (Some entries) ->
    fst (search_videos w query max_results st) = Return videos ->
    nth_error entries i = Some entry ->
    nth_error videos i = Some video ->
    ((Entry.duration entry = None
      \/ Entry.duration entry = Some (Py.Int 0)
      \/ (exists q, Entry.duration entry = Some (Py.Float q) /\ (q == 0)%Q)) ->
     YoutubeResult.length video = 120%Z)
    /\ ((Entry.view_count entry = None \/ Entry.view_count entry = Some 0%Z) ->
        YoutubeResult.views video = 0%Z).
Proof.
  intros query max_results st entries videos i entry video Hw Hs He Hv.
  rewrite (search_videos_value _ _ _ _ Hw) in Hs.
  destruct (comprehension entries) as [ys|ex] eqn:Ec.
  - injection Hs as ->.
    pose proof (comprehension_nth _ _ _ _ _ Ec He Hv) as Hy.
    unfold youtube_result_of_entry in Hy.
    destruct (getitem "id" (Entry.id entry)); [|discriminate].
    destruct (getitem "title" (Entry.title entry)); [|discriminate].
    injection Hy as <-. cbn [YoutubeResult.length YoutubeResult.views].
    split.
    + intros [->|[->|[q [-> Hq]]]]; try reflexivity.
      rewrite (truthy_number_float_zero _ Hq). reflexivity.
    + intros [->| ->]; reflexivity.
  - injection Hs as <-. destruct i; discriminate.
Qed.

End SearchVideos.

Section DownloadVideo.

Variable w : World.

Lemma download_video_invalid_id (video_id : option string) (start end_ : option Z)
    (proxy : option string) (st : state) :
  is_valid_id video_id = false ->
  download_video w video_id start end_ proxy st
  = (Raise (FakeVideoException ("Invalid video ID: " ++ Py.str_of_opt video_id)), st).
Proof.
  intros Hv. unfold download_video. rewrite Hv. reflexivity.
Qed.

(** C5. An identifier that is absent, or not exactly 11 characters long,
    makes [download_video] raise [FakeVideoException] with the state as
    it was: no temporary file is created and no download is issued. *)
Theorem download_video_rejects_invalid_id :
  forall (video_id : option string) (start end_ : option Z)
         (proxy : option string) (st : state),
    match video_id with
    | None => True
    | Some s => String.length s <> 11%nat
    end ->
    download_video w video_id start end_ proxy st
    = (Raise (FakeVideoException ("Invalid video ID: " ++ Py.str_of_opt video_id)), st).
Proof.
  intros video_id start end_ proxy st H.
  apply download_video_invalid_id.
  destruct video_id as [s|]; [|reflexivity].
  simpl. now apply Nat.eqb_neq.
Qed.

Lemma download_video_valid_id (video_id : option string) (start end_ : option Z)
    (proxy : option string) (st : state) :
  is_valid_id video_id = true ->
  let h := next_handle st in
  let attempted :=
    (log st ++ [EvTempfile h;
                EvDownload h (video_url_of video_id) (download_ranges_of start end_) proxy])%list in
  download_video w video_id start end_ proxy st
  = match ydl_download w h (video_url_of video_id) (download_ranges_of start end_) proxy with
    | DownloadRaises message =>
        if is_blocked_message message then
          (Raise (IPBlockedException message),
           mkState (attempted ++ [EvClose h]) (S h) (clock_reads st))
        else if is_fake_video_message message then
          (Raise (FakeVideoException message),
           mkState (attempted ++ [EvClose h]) (S h) (clock_reads st))
        else
          (Return None,
           mkState (attempted ++ [EvClose h; EvPrint ("Error downloading video: " ++ message)])
                   (S h) (clock_reads st))
    | DownloadRemoves message unlink_error =>
        (Raise (Exception unlink_error),
         mkState (attempted ++ [EvClose h]) (S h) (clock_reads st))
    | Downloaded st_size =>
        if (st_size =? 0)%N then
          (Return None,
           mkState (attempted ++
                    [EvPrint ("Error downloading video: " ++ tempfile_name w h ++ " is empty");
                     EvClose h])
                   (S h) (clock_reads st))
        else (Return (Some h), mkState attempted (S h) (clock_reads st))
    end.
Proof.
  intros Hv h attempted. subst h attempted.
  unfold download_video. rewrite Hv. cbn [negb].
  unfold call_download. run_monad.
  destruct (ydl_download w (next_handle st) (video_url_of video_id)
              (download_ranges_of start end_) proxy) as [message|message unlink_error|st_size];
    cbn [log next_handle clock_reads str_of_exn unlink_error_of].
  - destruct (is_blocked_message message); [|destruct (is_fake_video_message message)];
      cbn [log next_handle clock_reads];
      flatten_log; reflexivity.
  - flatten_log. reflexivity.
  - destruct (st_size =? 0)%N; cbn [log next_handle clock_reads];
      flatten_log; reflexivity.
Qed.

(** When the download provider raises and the temporary file can be
    closed, [download_video] closes it and classifies the message in this
    order: a message with a blocking or format-unavailable phrase raises
    [IPBlockedException]; otherwise a message with a phrase for a missing
    video or a malformed reference raises [FakeVideoException]; otherwise
    the error is printed and the value is [None].  An empty file is
    reported, closed, and the value is [None]. *)
Theorem download_video_classifies_failures :
  forall (video_id : option string) (start end_ : option Z)
         (proxy : option string) (st : state),
    is_valid_id video_id = true ->
    let h := next_handle st in
    let video_url := video_url_of video_id in
    let download_ranges := download_ranges_of start end_ in
    let after (tail : list event) :=
      mkState (log st ++ [EvTempfile h; EvDownload h video_url download_ranges proxy] ++ tail)
              (S h) (clock_reads st) in
    (forall message,
        ydl_download w h video_url download_ranges proxy = DownloadRaises message ->
        (is_blocked_message message = true ->
         download_video w video_id start end_ proxy st
         = (Raise (IPBlockedException message), after [EvClose h]))
        /\ (is_blocked_message message = false ->
            is_fake_video_message message = true ->
            download_video w video_id start end_ proxy st
            = (Raise (FakeVideoException message), after [EvClose h]))
        /\ (is_blocked_message message = false ->
            is_fake_video_message message = false ->
            download_video w video_id start end_ proxy st
            = (Return None,
               after [EvClose h; EvPrint ("Error downloading video: " ++ message)])))
    /\ (ydl_download w h video_url download_ranges proxy = Downloaded 0 ->
        download_video w video_id start end_ proxy st
        = (Return None,
           after [EvPrint ("Error downloading video: " ++ tempfile_name w h ++ " is empty");
                  EvClose h])).
Proof.
  intros video_id start end_ proxy st Hv h video_url download_ranges after.
  pose proof (download_video_valid_id video_id start end_ proxy st Hv) as E.
  cbn zeta in E. fold h video_url download_ranges in E.
  split.
  - intros message Hm. rewrite Hm in E.
    repeat split.
    + intros Hb. rewrite Hb in E. rewrite E. unfold after. flatten_log. reflexivity.
    + intros Hb Hf. rewrite Hb, Hf in E. rewrite E. unfold after. flatten_log. reflexivity.
    + intros Hb Hf. rewrite Hb, Hf in E. rewrite E. unfold after. flatten_log. reflexivity.
  - intros Hd. rewrite Hd in E. cbn in E. rewrite E. unfold after. flatten_log. reflexivity.
Qed.

(** When the provider raises after taking the temporary file away, the
    close in the handler raises and nothing after it runs: the message is
    not classified, nothing is printed, and the error of the close goes to
    the caller. *)
Lemma download_video_removed (video_id : option string) (start end_ : option Z)
    (proxy : option string) (st : state) (message unlink_error : string) :
  is_valid_id video_id = true ->
  ydl_download w (next_handle st) (video_url_of video_id)
    (download_ranges_of start end_) proxy = DownloadRemoves message unlink_error ->
  download_video w video_id start end_ proxy st
  = (Raise (Exception unlink_error),
     mkState (log st ++ [EvTempfile (next_handle st);
                         EvDownload (next_handle st) (video_url_of video_id)
                           (download_ranges_of start end_) proxy;
                         EvClose (next_handle st)])
             (S (next_handle st)) (clock_reads st)).
Proof.
  intros Hv Hd.
  rewrite (download_video_valid_id video_id start end_ proxy st Hv). cbn zeta.
  rewrite Hd. flatten_log. reflexivity.
Qed.

End DownloadVideo.

Section GetDescription.

(** C9. [get_description] depends on the title and the description of
    the candidate only.  Its value is the title, followed by a blank line
    and the body only when a description is there; a description that is
    not empty is always appended, an absent or empty one never. *)
Theorem get_description_title_then_body :
  forall yt yt' : YoutubeResult.t,
    (YoutubeResult.title yt = YoutubeResult.title yt' ->
     YoutubeResult.description yt = YoutubeResult.description yt' ->
     get_description yt = get_description yt')
    /\ (get_description yt = YoutubeResult.title yt
        \/ exists body,
             YoutubeResult.description yt = Some body
             /\ get_description yt = YoutubeResult.title yt ++ Py.LF ++ Py.LF ++ body)
    /\ (forall body,
           YoutubeResult.description yt = Some body -> body <> "" ->
           get_description yt = YoutubeResult.title yt ++ Py.LF ++ Py.LF ++ body)
    /\ (YoutubeResult.description yt = None \/ YoutubeResult.description yt = Some "" ->
        get_description yt = YoutubeResult.title yt).
Proof.
  intros yt yt'. unfold get_description. repeat split.
  - intros Ht Hd. rewrite Ht, Hd. reflexivity.
  - destruct (YoutubeResult.description yt) as [[|c body]|]; cbn [Py.truthy_str]; eauto.
  - intros body -> Hne. destruct body; [congruence|reflexivity].
  - intros [-> | ->]; reflexivity.
Qed.

End GetDescription.

(** * Properties of main.py *)

Import Main.

Section LiveFiles.

Lemma scoped_app (a b : list event) :
  forall lv, scoped lv a -> scoped [] b -> scoped lv (a ++ b).
Proof.
  induction a as [|ev a IH]; intros lv Ha Hb; simpl in *.
  - subst lv. exact Hb.
  - destruct Ha as (Ht & Hl & Ha). auto.
Qed.

Lemma scoped_end (t : list event) :
  forall lv, scoped lv t -> live_from lv t = [].
Proof.
  induction t as [|ev t IH]; intros lv H; simpl in *.
  - exact H.
  - destruct H as (_ & _ & H). now apply IH.
Qed.

Lemma scoped_prefix (t : list event) :
  forall lv pre post,
    (List.length lv <= 1)%nat -> scoped lv t -> t = (pre ++ post)%list ->
    (List.length (live_from lv pre) <= 1)%nat.
Proof.
  induction t as [|ev t IH]; intros lv pre post Hlv H E.
  - symmetry in E. apply app_eq_nil in E. destruct E as [-> _]. exact Hlv.
  - destruct pre as [|ev' pre]; [exact Hlv|].
    simpl in E. injection E as <- E.
    destruct H as (_ & Hl & H). simpl.
    eapply IH; eauto.
Qed.

Lemma scoped_at_time (t : list event) :
  forall lv pre now post,
    scoped lv t -> t = (pre ++ EvTime now :: post)%list -> live_from lv pre = [].
Proof.
  induction t as [|ev t IH]; intros lv pre now post H E.
  - destruct pre; discriminate.
  - destruct H as (Ht & _ & H).
    destruct pre as [|ev' pre]; simpl in E; injection E as E1 E2; subst ev.
    + simpl. now apply Ht.
    + simpl. eapply IH; eauto.
Qed.

Lemma scoped_prints (evs : list event) :
  Forall (fun ev => exists line, ev = EvPrint line) evs -> scoped [] evs.
Proof.
  induction 1 as [|ev evs [line ->] _ IH]; simpl.
  - reflexivity.
  - repeat split; auto.
Qed.

Lemma prints_not_search (evs : list event) :
  Forall (fun ev => exists line, ev = EvPrint line) evs ->
  Forall (fun ev => is_search ev = false) evs.
Proof.
  apply Forall_impl. intros ev [line ->]. reflexivity.
Qed.

End LiveFiles.

(** Close the goals on an explicit stretch of log. *)
Ltac explicit_log :=
  simpl; rewrite ?Nat.eqb_refl; simpl;
  repeat match goal with
         | |- _ /\ _ => split
         | |- Forall _ _ => constructor
         end;
  auto; try discriminate; try reflexivity.

Section Orchestrator.

Variable w : World.

(** What one iteration does to the log and to [video_metas]. *)
Lemma loop_body_spec (result : YoutubeResult.t) (video_metas : list VideoMetadata.t)
    (st : state) :
  exists evs,
    log (snd (loop_body w result video_metas st)) = (log st ++ evs)%list
    /\ scoped [] evs
    /\ Forall (fun ev => is_search ev = false) evs
    /\ match fst (loop_body w result video_metas st) with
       | Return video_metas' =>
           video_metas' = video_metas
           \/ exists video_emb description_emb,
               video_metas'
               = (video_metas ++
                  [VideoMetadata.mk
                     (YoutubeResult.video_id result)
                     (get_description result)
                     (YoutubeResult.views result)
                     (time_time w (clock_reads st))
                     (Py.float_of_int MAX_DURATION)
                     video_emb description_emb])%list
       | Raise _ => True
       end.
Proof.
  unfold loop_body, time, bind.
  destruct (is_valid_id (Some (YoutubeResult.video_id result))) eqn:Hv.
  - rewrite (download_video_valid_id w _ _ _ _ _ Hv).
    cbn [log next_handle clock_reads].
    destruct (ydl_download w _ _ _ _) as [message|message unlink_error|st_size].
    + destruct (is_blocked_message message); [|destruct (is_fake_video_message message)];
        cbn [fst snd log]; eexists; (split; [flatten_log; reflexivity|]); explicit_log.
    + cbn [fst snd log]; eexists; (split; [flatten_log; reflexivity|]); explicit_log.
    + destruct (st_size =? 0)%N.
      * cbn [fst snd log]; eexists; (split; [flatten_log; reflexivity|]); explicit_log.
      * unfold embed_and_append, call_embed, first_row. run_monad.
        destruct (imagebind_embed w _ _) as [[video description]|ex];
          [destruct video as [|video_emb ?]; [|destruct description as [|description_emb ?]]|];
          cbn [fst snd log Embeddings.video Embeddings.description];
          eexists; (split; [flatten_log; reflexivity|]); explicit_log.
        right. eauto.
  - rewrite (download_video_invalid_id w _ _ _ _ _ Hv).
    cbn [fst snd log]. eexists; (split; [reflexivity|]); explicit_log.
Qed.

(** The loop: its stretch of log, the length of its value and the
    records it adds. *)
Lemma for_result_in_spec (num_videos : Z) (results : list YoutubeResult.t) :
  forall (video_metas : list VideoMetadata.t) (st : state),
  exists evs,
    log (snd (for_result_in w num_videos results video_metas st)) = (log st ++ evs)%list
    /\ scoped [] evs
    /\ Forall (fun ev => is_search ev = false) evs
    /\ match fst (for_result_in w num_videos results video_metas st) with
       | Return out =>
           ((Z.of_nat (List.length video_metas) < num_videos)%Z ->
            (Z.of_nat (List.length out) <= num_videos)%Z)
           /\ Forall (fun m =>
                        In m video_metas
                        \/ (VideoMetadata.end_time m = Py.float_of_int MAX_DURATION
                            /\ exists n, VideoMetadata.start_time m = time_time w n))
                     out
       | Raise _ => True
       end.
Proof.
  induction results as [|result rest IH]; intros video_metas st.
  - exists []. cbn. rewrite app_nil_r. repeat split; auto.
    + lia.
    + apply Forall_forall. auto.
  - cbn [for_result_in]. unfold bind.
    destruct (loop_body_spec result video_metas st) as (evs1 & Hlog1 & Hsc1 & Hns1 & Hres).
    destruct (loop_body w result video_metas st) as [[video_metas'|ex] st1];
      cbn [fst snd] in *.
    + assert (Hlen : (Z.of_nat (List.length video_metas')
                      <= Z.of_nat (List.length video_metas) + 1)%Z).
      { destruct Hres as [->|(ve & de & ->)]; [lia|].
        rewrite length_app. simpl. lia. }
      assert (Hrec : Forall (fun m =>
                        In m video_metas
                        \/ (VideoMetadata.end_time m = Py.float_of_int MAX_DURATION
                            /\ exists n, VideoMetadata.start_time m = time_time w n))
                       video_metas').
      { destruct Hres as [->|(ve & de & ->)].
        - apply Forall_forall. auto.
        - apply Forall_app. split; [apply Forall_forall; auto|].
          constructor; [|constructor]. right. cbn. eauto. }
      destruct (Z.of_nat (List.length video_metas') =? num_videos)%Z eqn:Hstop.
      * exists evs1. cbn [fst snd ret]. apply Z.eqb_eq in Hstop.
        repeat split; auto. lia.
      * apply Z.eqb_neq in Hstop.
        destruct (IH video_metas' st1) as (evs2 & Hlog2 & Hsc2 & Hns2 & Hout).
        exists (evs1 ++ evs2)%list.
        split; [rewrite Hlog2, Hlog1, app_assoc; reflexivity|].
        split; [now apply scoped_app|].
        split; [apply Forall_app; auto|].
        destruct (fst (for_result_in w num_videos rest video_metas' st1)) as [out|]; [|exact I].
        destruct Hout as [Hbound Hout]. split.
        -- intros Hlt. apply Hbound. lia.
        -- rewrite Forall_forall in *. intros m Hm.
           destruct (Hout m Hm) as [Hin|Hnew]; auto.
    + exists evs1. auto.
Qed.

(** The whole run: one search, the report of its size, then the loop. *)
Lemma search_and_embed_videos_spec (query : string) (num_videos : Z) (st : state) :
  exists prints evs,
    log (snd (search_and_embed_videos w query num_videos st))
    = (log st
       ++ EvExtractInfo (search_query_of (request_count num_videos) query) :: prints
       ++ evs)%list
    /\ Forall (fun ev => exists line, ev = EvPrint line) prints
    /\ scoped [] evs
    /\ Forall (fun ev => is_search ev = false) evs
    /\ match fst (search_and_embed_videos w query num_videos st) with
       | Return out =>
           ((1 <= num_videos)%Z -> (Z.of_nat (List.length out) <= num_videos)%Z)
           /\ Forall (fun m =>
                        VideoMetadata.end_time m = Py.float_of_int MAX_DURATION
                        /\ exists n, VideoMetadata.start_time m = time_time w n)
                     out
       | Raise _ => True
       end.
Proof.
  unfold search_and_embed_videos. unfold bind at 1 2 3 4.
  destruct (search_videos_never_raises w query (request_count num_videos) st)
    as (results & prints & -> & Hprints).
  unfold print, emit. cbn [log next_handle clock_reads].
  match goal with
  | |- context [for_result_in w num_videos results [] ?s] =>
      destruct (for_result_in_spec num_videos results [] s)
        as (evs & Hlog & Hsc & Hns & Hout)
  end.
  cbn [log] in Hlog.
  exists (prints ++ [EvPrint ("search_results " ++ Py.str_of_nat (List.length results))])%list,
         evs.
  split.
  { rewrite Hlog. repeat rewrite <- app_assoc. cbn [app].
    repeat rewrite <- app_assoc. reflexivity. }
  split.
  { apply Forall_app. split; [exact Hprints|]. repeat constructor. eauto. }
  split; [exact Hsc|]. split; [exact Hns|].
  destruct (fst (for_result_in w num_videos results [] _)) as [out|]; [|exact I].
  destruct Hout as [Hbound Hrec]. split.
  - intros Hn. apply Hbound. cbn. lia.
  - rewrite Forall_forall in *. intros m Hm.
    destruct (Hrec m Hm) as [[]|Hnew]. exact Hnew.
Qed.

Lemma request_count_quot (num_videos : Z) :
  request_count num_videos = (3 * num_videos ÷ 2)%Z.
Proof.
  unfold request_count, Py.int_of_float, Py.float_of_int. cbn.
  replace (num_videos * 15)%Z with (3 * num_videos * 5)%Z by lia.
  change 10%Z with (2 * 5)%Z.
  apply Z.quot_mul_cancel_r; lia.
Qed.

Lemma request_count_floor (num_videos : Z) :
  (0 <= num_videos)%Z ->
  request_count num_videos = Py.floor (Py.float_of_int num_videos * 1.5).
Proof.
  intros H. unfold request_count, Py.int_of_float, Py.floor, Py.float_of_int. cbn.
  apply Z.quot_div_nonneg; lia.
Qed.

(** Every record of a run that returns ends at [MAX_DURATION] and starts
    at a reading of the wall clock. *)
Lemma emitted_records (query : string) (num_videos : Z) (st st' : state)
    (out : list VideoMetadata.t) :
  search_and_embed_videos w query num_videos st = (Return out, st') ->
  Forall (fun m =>
            VideoMetadata.end_time m = Py.float_of_int MAX_DURATION
            /\ exists n, VideoMetadata.start_time m = time_time w n)
         out.
Proof.
  intros E.
  destruct (search_and_embed_videos_spec query num_videos st)
    as (prints & evs & _ & _ & _ & _ & H).
  rewrite E in H. apply H.
Qed.

(** For a target count of at least 1, the list that
    [search_and_embed_videos] returns has at most [num_videos] records,
    whatever the search returns and whichever downloads and embeddings
    fail. *)
Theorem output_within_target_count :
  forall (query : string) (num_videos : Z) (st : state)
         (out : list VideoMetadata.t) (st' : state),
    (1 <= num_videos)%Z ->
    search_and_embed_videos w query num_videos st = (Return out, st') ->
    (Z.of_nat (List.length out) <= num_videos)%Z.
Proof.
  intros query num_videos st out st' Hn E.
  destruct (search_and_embed_videos_spec query num_videos st)
    as (prints & evs & _ & _ & _ & _ & H).
  rewrite E in H. now apply H.
Qed.

(** C4 (as amended). For a target count [0 <= num_videos < 2^51], where
    the float product [num_videos * 1.5] is exact, the first call of a run,
    and its only search, asks the provider for [floor(num_videos * 1.5)]
    results, which is [3 * num_videos / 2] rounded down. *)
Theorem search_requests_floor_of_overfetch :
  forall (query : string) (num_videos : Z) (st : state),
    (0 <= num_videos < 2 ^ 51)%Z ->
    request_count num_videos = Py.floor (Py.float_of_int num_videos * 1.5)
    /\ request_count num_videos = (3 * num_videos / 2)%Z
    /\ exists evs,
        log (snd (search_and_embed_videos w query num_videos st))
        = (log st
           ++ EvExtractInfo
                (search_query_of (Py.floor (Py.float_of_int num_videos * 1.5)) query)
           :: evs)%list
        /\ Forall (fun ev => is_search ev = false) evs.
Proof.
  intros query num_videos st [Hn _].
  split; [now apply request_count_floor|].
  split.
  { rewrite request_count_quot. apply Z.quot_div_nonneg; lia. }
  destruct (search_and_embed_videos_spec query num_videos st)
    as (prints & evs & Hlog & Hprints & _ & Hns & _).
  exists (prints ++ evs)%list. split.
  - rewrite Hlog, (request_count_floor _ Hn). reflexivity.
  - apply Forall_app. split; [now apply prints_not_search|exact Hns].
Qed.

(** C8. Along the calls of any run of [search_and_embed_videos], ended by
    a return or by an exception: at most one temporary file is open at any
    time; none is open when an iteration starts (when the clock is read);
    none is open when the run ends. *)
Theorem media_file_scoped_to_iteration :
  forall (query : string) (num_videos : Z) (st : state),
  exists evs,
    log (snd (search_and_embed_videos w query num_videos st)) = (log st ++ evs)%list
    /\ (forall pre post, evs = (pre ++ post)%list -> (List.length (live pre) <= 1)%nat)
    /\ (forall pre now post, evs = (pre ++ EvTime now :: post)%list -> live pre = [])
    /\ live evs = [].
Proof.
  intros query num_videos st.
  destruct (search_and_embed_videos_spec query num_videos st)
    as (prints & evs & Hlog & Hprints & Hsc & _ & _).
  eexists. split; [exact Hlog|].
  assert (H : scoped [] (EvExtractInfo (search_query_of (request_count num_videos) query)
                         :: prints ++ evs)).
  { cbn [scoped step_live is_time].
    split; [discriminate|]. split; [cbn; lia|].
    apply scoped_app; [now apply scoped_prints|exact Hsc]. }
  repeat split.
  - intros pre post E. unfold live. eapply scoped_prefix; eauto.
  - intros pre now post E. unfold live. eapply scoped_at_time; eauto.
  - unfold live. now apply scoped_end.
Qed.

End Orchestrator.

(** * The properties on sample runs *)

Section SampleRuns.

Import Scenario.

(** C1. In the run of [main.py] where every step succeeds, each of the
    eight records has for [start_time] the reading of the wall clock taken
    before the download, and for [end_time] 120: the end comes before the
    start. *)
Theorem start_time_is_a_clock_reading :
  List.length (returned main_run) = 8%nat
  /\ Forall (fun m =>
               VideoMetadata.end_time m = inject_Z 120
               /\ (inject_Z 1700000000 <= VideoMetadata.start_time m)%Q
               /\ (VideoMetadata.end_time m < VideoMetadata.start_time m)%Q)
            (returned main_run).
Proof.
  vm_compute. split; [reflexivity|].
  repeat constructor; discriminate.
Qed.

(** C2. In the same run the third candidate lasts 50 seconds and its
    download is windowed to [0, 50), yet the [end_time] of its record is
    120. *)
Theorem end_time_ignores_clip_window :
  nth_error twelve 2%nat = Some (candidate "omegavid003" 50)
  /\ In (EvDownload 2%nat "https://www.youtube.com/watch?v=omegavid003"
           (Some (0%Z, 50%Z)) None)
        (log (snd main_run))
  /\ exists m,
      nth_error (returned main_run) 2%nat = Some m
      /\ VideoMetadata.video_id m = "omegavid003"
      /\ VideoMetadata.end_time m = inject_Z 120
      /\ ~ (VideoMetadata.end_time m == inject_Z 50)%Q.
Proof.
  split; [reflexivity|]. split.
  - vm_compute. do 14 right. left. reflexivity.
  - eexists. split; [vm_compute; reflexivity|].
    repeat split. vm_compute. discriminate.
Qed.


(** The run of [main.py] returns 8 records for its target of 8. *)
Lemma output_within_target_count_witness :
  (1 <= 8)%Z /\ (Z.of_nat (List.length (returned main_run)) <= 8)%Z.
Proof.
  split; [lia|].
  apply (output_within_target_count (all_succeed twelve) "omega" 8 initial
           (returned main_run) (snd main_run)).
  - lia.
  - vm_compute. reflexivity.
Defined.

(** C4, the claim as stated fails: for a target count of 1 the run asks
    for 1 result, and [ceil(1 * 1.5)] is 2. *)
Lemma one_result_requested_for_target_one :
  hd_error (log (snd (search_and_embed_videos (all_succeed twelve) "omega" 1 initial)))
  = Some (EvExtractInfo "ytsearch1:omega")
  /\ request_count 1 = 1%Z
  /\ Py.ceil (Py.float_of_int 1 * 1.5) = 2%Z
  /\ request_count 1 <> Py.ceil (Py.float_of_int 1 * 1.5).
Proof.
  repeat split; try (vm_compute; reflexivity).
  vm_compute. discriminate.
Qed.

(** [main.py] asks for 12 results for its target of 8. *)
Lemma search_requests_floor_of_overfetch_witness :
  (0 <= 8 < 2 ^ 51)%Z /\ request_count 8 = (3 * 8 / 2)%Z.
Proof.
  split; [lia|].
  destruct (search_requests_floor_of_overfetch (all_succeed twelve) "omega" 8 initial)
    as (_ & H & _); [lia|exact H].
Defined.

(** An identifier of five characters. *)
Lemma download_video_rejects_invalid_id_witness :
  String.length "omega" <> 11%nat
  /\ download_video (all_succeed twelve) (Some "omega") (Some 0%Z) (Some 120%Z) None initial
     = (Raise (FakeVideoException "Invalid video ID: omega"), initial).
Proof.
  split; [simpl; lia|].
  apply (download_video_rejects_invalid_id (all_succeed twelve) (Some "omega")).
  simpl. lia.
Defined.

(** The blocking test comes first: a message with the phrase "Video
    unavailable" and a format-unavailable phrase raises
    [IPBlockedException], not [FakeVideoException]. *)
Lemma fake_video_phrase_raises_ip_blocked :
  is_fake_video_message both_phrases = true
  /\ fst (download_video (download_fails both_phrases)
            (Some "omegavid001") (Some 0%Z) (Some 120%Z) None initial)
     = Raise (IPBlockedException both_phrases)
  /\ fst (download_video (download_fails both_phrases)
            (Some "omegavid001") (Some 0%Z) (Some 120%Z) None initial)
     <> Raise (FakeVideoException both_phrases).
Proof.
  repeat split; try (vm_compute; reflexivity).
  vm_compute. discriminate.
Qed.

(** C6. A provider that fails with a message of no known kind after it
    took the temporary file away: the close in the handler raises, so
    [download_video] neither prints the error nor returns [None]; the
    [FileNotFoundError] of the close is raised to the caller. *)
Theorem unlink_error_escapes_download_video :
  is_blocked_message unclassified = false
  /\ is_fake_video_message unclassified = false
  /\ download_video (download_removes unclassified missing_file)
       (Some "omegavid001") (Some 0%Z) (Some 120%Z) None initial
     = (Raise (Exception missing_file),
        mkState [EvTempfile 0%nat;
                 EvDownload 0%nat "https://www.youtube.com/watch?v=omegavid001"
                   (Some (0%Z, 120%Z)) None;
                 EvClose 0%nat]
                1 0)
  /\ fst (download_video (download_removes unclassified missing_file)
            (Some "omegavid001") (Some 0%Z) (Some 120%Z) None initial)
     <> Return None.
Proof.
  split; [vm_compute; reflexivity|]. split; [vm_compute; reflexivity|].
  split; [vm_compute; reflexivity|]. vm_compute. discriminate.
Qed.

(** A message with a phrase for a missing video and no blocking phrase. *)
Lemma download_video_classifies_failures_witness :
  is_valid_id (Some "omegavid001") = true
  /\ is_blocked_message "ERROR: [youtube] omegavid001: Video unavailable" = false
  /\ is_fake_video_message "ERROR: [youtube] omegavid001: Video unavailable" = true
  /\ fst (download_video (download_fails "ERROR: [youtube] omegavid001: Video unavailable")
            (Some "omegavid001") (Some 0%Z) (Some 120%Z) None initial)
     = Raise (FakeVideoException "ERROR: [youtube] omegavid001: Video unavailable").
Proof.
  destruct (download_video_classifies_failures
              (download_fails "ERROR: [youtube] omegavid001: Video unavailable")
              (Some "omegavid001") (Some 0%Z) (Some 120%Z) None initial eq_refl)
    as [Hraises _].
  destruct (Hraises _ eq_refl) as (_ & Hfake & _).
  split; [reflexivity|]. split; [reflexivity|]. split; [reflexivity|].
  rewrite Hfake; reflexivity.
Defined.

(** A provider that cannot reach the search page. *)
Lemma search_videos_swallows_provider_failure_witness :
  extract_info search_fails (search_query_of 12 "omega")
  = ExtractRaises "ERROR: Unable to download API page"
  /\ fst (search_videos search_fails "omega" 12 initial) = Return [].
Proof.
  split; [reflexivity|].
  rewrite (search_videos_swallows_provider_failure search_fails "omega" 12
             "ERROR: Unable to download API page" initial); reflexivity.
Defined.

(** Two candidates with the same title and description. *)
Lemma get_description_title_then_body_witness :
  get_description (YoutubeResult.mk "omegavid001" "Omega" (Some "A watch.") 300 1000)
  = get_description (YoutubeResult.mk "omegavid002" "Omega" (Some "A watch.") 95 7)
  /\ get_description (YoutubeResult.mk "omegavid001" "Omega" (Some "A watch.") 300 1000)
     = "Omega" ++ Py.LF ++ Py.LF ++ "A watch.".
Proof.
  destruct (get_description_title_then_body
              (YoutubeResult.mk "omegavid001" "Omega" (Some "A watch.") 300 1000)
              (YoutubeResult.mk "omegavid002" "Omega" (Some "A watch.") 95 7))
    as (Hsame & _ & Hbody & _).
  split.
  - apply Hsame; reflexivity.
  - apply Hbody; [reflexivity|discriminate].
Defined.

(** An entry with a duration of 0 and a view count of 0. *)
Lemma search_videos_defaults_by_truthiness_witness :
  extract_info (all_succeed [zero_fields]) (search_query_of 12 "omega")
  = ExtractReturns (Some [zero_fields])
  /\ fst (search_videos (all_succeed [zero_fields]) "omega" 12 initial)
     = Return [YoutubeResult.mk "omegavid001" "clip omegavid001" None 120 0]
  /\ Entry.duration zero_fields = Some (Py.Int 0)
  /\ Entry.view_count zero_fields = Some 0%Z
  /\ YoutubeResult.length
       (YoutubeResult.mk "omegavid001" "clip omegavid001" None 120 0) = 120%Z
  /\ YoutubeResult.views
       (YoutubeResult.mk "omegavid001" "clip omegavid001" None 120 0) = 0%Z.
Proof.
  destruct (search_videos_defaults_by_truthiness (all_succeed [zero_fields])
              "omega" 12 initial [zero_fields]
              [YoutubeResult.mk "omegavid001" "clip omegavid001" None 120 0]
              0%nat zero_fields
              (YoutubeResult.mk "omegavid001" "clip omegavid001" None 120 0)
              eq_refl eq_refl eq_refl eq_refl) as [Hlength Hviews].
  split; [reflexivity|]. split; [reflexivity|].
  split; [reflexivity|]. split; [reflexivity|]. split.
  - apply Hlength. right. left. reflexivity.
  - apply Hviews. right. reflexivity.
Defined.

End SampleRuns.

(** * Further properties of video_utils.py *)

Section ReprArgs.

Lemma excluded_placeholder (a : string) :
  In a exclude_args -> excluded a = true.
Proof.
  unfold exclude_args. simpl. intros [<-|[<-|[]]]; reflexivity.
Qed.

Lemma filter_placeholders :
  filter (fun av : string * repr_value => negb (excluded (fst av)))
         (map (fun a => (a, RStrs ["..."])) exclude_args) = [].
Proof. reflexivity. Qed.

Lemma filter_repr_args (parent_args : list (string * repr_value)) :
  filter (fun av => negb (excluded (fst av))) (repr_args parent_args)
  = filter (fun av => negb (excluded (fst av))) parent_args.
Proof.
  unfold repr_args. rewrite filter_app, filter_placeholders, app_nil_r.
  induction parent_args as [|av rest IH]; [reflexivity|].
  simpl. destruct (negb (excluded (fst av))) eqn:E; simpl; rewrite ?E, IH; reflexivity.
Qed.

(** X1. [__repr_args__] never shows an embedding: a pair named
    [video_emb] or [description_emb] in its value holds the placeholder;
    the pairs with other names are those of the parent, in the same order;
    the two placeholders come last, also when the parent lists neither. *)
Theorem repr_args_hides_embeddings :
  forall parent_args : list (string * repr_value),
    (forall a v, In (a, v) (repr_args parent_args) ->
                 excluded a = true -> v = RStrs ["..."])
    /\ filter (fun av => negb (excluded (fst av))) (repr_args parent_args)
       = filter (fun av => negb (excluded (fst av))) parent_args
    /\ exists kept,
        repr_args parent_args
        = (kept ++ [("video_emb", RStrs ["..."]); ("description_emb", RStrs ["..."])])%list
        /\ Forall (fun av => excluded (fst av) = false) kept.
Proof.
  intros parent_args. split; [|split].
  - unfold repr_args. intros a v Hin Hex.
    apply in_app_or in Hin. destruct Hin as [Hin|Hin].
    + apply filter_In in Hin. destruct Hin as [_ Hkeep]. cbn [fst] in Hkeep.
      rewrite Hex in Hkeep. discriminate.
    + simpl in Hin. destruct Hin as [E|[E|[]]]; now inversion E.
  - apply filter_repr_args.
  - unfold repr_args. eexists. split; [reflexivity|].
    apply Forall_forall. intros av Hin. apply filter_In in Hin.
    destruct Hin as [_ Hkeep]. now apply negb_true_iff.
Qed.

(** X2. Applying [__repr_args__] to its own value changes nothing. *)
Theorem repr_args_idempotent :
  forall parent_args : list (string * repr_value),
    repr_args (repr_args parent_args) = repr_args parent_args.
Proof.
  intros parent_args.
  unfold repr_args at 1. rewrite filter_repr_args. reflexivity.
Qed.

End ReprArgs.

Section SearchVideosMore.

Variable w : World.

Lemma comprehension_well_formed (entries : list Entry.t) :
  Forall (fun e => Entry.id e <> None /\ Entry.title e <> None) entries ->
  exists videos,
    comprehension entries = Return videos
    /\ map (fun v => (Some (YoutubeResult.video_id v), Some (YoutubeResult.title v),
                      YoutubeResult.description v)) videos
       = map (fun e => (Entry.id e, Entry.title e, Entry.description e)) entries.
Proof.
  induction 1 as [|e rest [Hid Htitle] _ (videos & Hc & Hm)].
  - exists []. split; reflexivity.
  - cbn [comprehension]. unfold youtube_result_of_entry.
    destruct e as [[vid|] [title|] description duration view_count];
      cbn [Entry.id Entry.title getitem] in *; try congruence.
    rewrite Hc. eexists. split; [reflexivity|].
    cbn. rewrite Hm. reflexivity.
Qed.

Lemma comprehension_missing_key (entries : list Entry.t) :
  forall e,
    In e entries ->
    Entry.id e = None \/ Entry.title e = None ->
    exists k,
      (k = "id" \/ k = "title")
      /\ comprehension entries = Raise (Exception ("'" ++ k ++ "'")).
Proof.
  induction entries as [|e0 rest IH]; intros e Hin Hmiss; [destruct Hin|].
  cbn [comprehension]. unfold youtube_result_of_entry.
  destruct e0 as [[vid|] [title|] description duration view_count];
    cbn [Entry.id Entry.title getitem].
  - destruct Hin as [<-|Hin].
    + cbn in Hmiss. destruct Hmiss; discriminate.
    + destruct (IH e Hin Hmiss) as (k & Hk & ->). eauto.
  - exists "title". auto.
  - exists "id". auto.
  - exists "id". auto.
Qed.

(** X3. [search_videos] never raises, whatever the provider does or
    returns: its value is a list, it calls the provider once and prints at
    most one line, and it creates no file and reads no clock. *)
Theorem search_videos_always_returns :
  forall (query : string) (max_results : Z) (st : state),
  exists videos evs,
    search_videos w query max_results st
    = (Return videos,
       mkState (log st ++ EvExtractInfo (search_query_of max_results query) :: evs)
               (next_handle st) (clock_reads st))
    /\ (evs = [] \/ exists line, evs = [EvPrint line]).
Proof.
  intros query max_results st.
  unfold search_videos, call_extract_info. run_monad.
  destruct (extract_info w (search_query_of max_results query)) as [message|[entries|]];
    cbn [log next_handle clock_reads str_of_exn].
  - exists [], [EvPrint ("Error searching for videos: " ++ message)].
    flatten_log. split; [reflexivity|]. right. eauto.
  - destruct entries as [|e rest].
    + exists [], []. split; [reflexivity|]. now left.
    + destruct (comprehension (e :: rest)) as [ys|ex]; cbn [log next_handle clock_reads].
      * exists ys, []. split; [reflexivity|]. now left.
      * exists [], [EvPrint ("Error searching for videos: " ++ str_of_exn ex)].
        flatten_log. split; [reflexivity|]. right. eauto.
  - exists [], []. split; [reflexivity|]. now left.
Qed.

(** X4. When every entry the provider returns has an id and a title,
    [search_videos] returns one candidate per entry, in the provider's
    order, with the id, title and description of the entry. *)
Theorem search_videos_keeps_order :
  forall (query : string) (max_results : Z) (st : state) (entries : list Entry.t),
    extract_info w (search_query_of max_results query) = ExtractReturns (Some entries) ->
    Forall (fun e => Entry.id e <> None /\ Entry.title e <> None) entries ->
    exists videos,
      fst (search_videos w query max_results st) = Return videos
      /\ List.length videos = List.length entries
      /\ map (fun v => (Some (YoutubeResult.video_id v), Some (YoutubeResult.title v),
                        YoutubeResult.description v)) videos
         = map (fun e => (Entry.id e, Entry.title e, Entry.description e)) entries.
Proof.
  intros query max_results st entries Hw Hok.
  destruct (comprehension_well_formed entries Hok) as (videos & Hc & Hm).
  exists videos. rewrite (search_videos_value w _ _ _ _ Hw), Hc.
  split; [reflexivity|]. split; [|exact Hm].
  apply (f_equal (@List.length _)) in Hm. now rewrite !length_map in Hm.
Qed.

(** X5. One entry without an id or without a title discards the whole
    search: [search_videos] prints the missing key as the error and returns
    the empty list, also when the other entries are complete. *)
Theorem search_videos_missing_key_drops_all :
  forall (query : string) (max_results : Z) (st : state)
         (entries : list Entry.t) (entry : Entry.t),
    extract_info w (search_query_of max_results query) = ExtractReturns (Some entries) ->
    In entry entries ->
    Entry.id entry = None \/ Entry.title entry = None ->
    exists k,
      (k = "id" \/ k = "title")
      /\ search_videos w query max_results st
         = (Return [],
            mkState (log st ++ [EvExtractInfo (search_query_of max_results query);
                                EvPrint ("Error searching for videos: '" ++ k ++ "'")])
                    (next_handle st) (clock_reads st)).
Proof.
  intros query max_results st entries entry Hw Hin Hmiss.
  destruct (comprehension_missing_key entries entry Hin Hmiss) as (k & Hk & Hc).
  exists k. split; [exact Hk|].
  unfold search_videos, call_extract_info. run_monad. rewrite Hw.
  destruct entries as [|e rest]; [destruct Hin|].
  rewrite Hc. cbn [log next_handle clock_reads str_of_exn].
  flatten_log. reflexivity.
Qed.

(** X6. [search_videos] does not clamp a duration: an integer duration
    other than 0 is the length of the candidate as it is, above
    [MAX_DURATION] or below 0 too, and a duration strictly between 0 and 1
    second is true but truncates, so the length is 0 and not the
    default. *)
Theorem search_videos_length_of_duration :
  forall (query : string) (max_results : Z) (st : state)
         (entries : list Entry.t) (videos : list YoutubeResult.t)
         (i : nat) (entry : Entry.t) (video : YoutubeResult.t),
    extract_info w (search_query_of max_results query) = ExtractReturns (Some entries) ->
    fst (search_videos w query max_results st) = Return videos ->
    nth_error entries i = Some entry ->
    nth_error videos i = Some video ->
    (forall d, Entry.duration entry = Some (Py.Int d) -> d <> 0%Z ->
               YoutubeResult.length video = d)
    /\ (forall q, Entry.duration entry = Some (Py.Float q) -> (0 < q)%Q -> (q < 1)%Q ->
                  YoutubeResult.length video = 0%Z).
Proof.
  intros query max_results st entries videos i entry video Hw Hs He Hv.
  rewrite (search_videos_value w _ _ _ _ Hw) in Hs.
  destruct (comprehension entries) as [ys|ex] eqn:Ec.
  - injection Hs as ->.
    pose proof (comprehension_nth _ _ _ _ _ Ec He Hv) as Hy.
    unfold youtube_result_of_entry in Hy.
    destruct (getitem "id" (Entry.id entry)); [|discriminate].
    destruct (getitem "title" (Entry.title entry)); [|discriminate].
    injection Hy as <-. cbn [YoutubeResult.length].
    split.
    + intros d -> Hd. cbn [Py.truthy_number Py.int].
      apply Z.eqb_neq in Hd. rewrite Hd. reflexivity.
    + intros q -> Hpos Hlt. destruct q as [num den].
      unfold Qlt in Hpos, Hlt. cbn in Hpos, Hlt.
      cbn [Py.truthy_number Py.int Py.int_of_float Qnum Qden].
      destruct (num =? 0)%Z eqn:E; [apply Z.eqb_eq in E; lia|].
      cbn [negb]. unfold Py.int_of_float. cbn [Qnum Qden].
      apply Z.quot_small. lia.
  - injection Hs as <-. destruct i; discriminate.
Qed.

End SearchVideosMore.

Section DownloadVideoMore.

Variable w : World.

Lemma prefix_spec (a : string) :
  forall b, String.prefix a b = true <-> exists post, b = a ++ post.
Proof.
  induction a as [|c a IH]; intros b.
  - split; [intros _; exists b; reflexivity|intros _; destruct b; reflexivity].
  - destruct b as [|c' b]; simpl.
    + split; [discriminate|intros [post E]; discriminate].
    + destruct (ascii_dec c c') as [<-|Hne].
      * rewrite IH. split; intros [post E]; exists post.
        -- now rewrite E.
        -- now injection E.
      * split; [discriminate|]. intros [post E]. injection E as E1 E2. congruence.
Qed.

Lemma contains_spec (needle : string) :
  forall hay,
    Py.contains needle hay = true <-> exists pre post, hay = pre ++ needle ++ post.
Proof.
  induction hay as [|c hay IH]; cbn [Py.contains].
  - destruct (String.prefix needle "") eqn:E.
    + split; [intros _|reflexivity].
      apply prefix_spec in E. destruct E as [post E]. exists "", post. exact E.
    + split; [discriminate|]. intros (pre & post & H).
      destruct pre; [|discriminate]. simpl in H.
      assert (String.prefix needle "" = true) by (apply prefix_spec; eauto).
      congruence.
  - destruct (String.prefix needle (String c hay)) eqn:E.
    + split; [intros _|reflexivity].
      apply prefix_spec in E. destruct E as [post E]. exists "", post. exact E.
    + rewrite IH. split.
      * intros (pre & post & ->). exists (String c pre), post. reflexivity.
      * intros (pre & post & H). destruct pre as [|c' pre].
        -- simpl in H.
           assert (String.prefix needle (String c hay) = true)
             by (apply prefix_spec; eauto).
           congruence.
        -- injection H as _ H. eauto.
Qed.

(** X7. [download_video] hands back a file exactly when the identifier is
    valid and the provider left a file that is not empty; the file is then
    the one it created, still open.  In every other outcome, [None] or an
    exception, no file that it created is left open. *)
Theorem download_video_open_iff_returned :
  forall (video_id : option string) (start end_ : option Z)
         (proxy : option string) (st : state),
    (exists evs,
        log (snd (download_video w video_id start end_ proxy st)) = (log st ++ evs)%list
        /\ live evs
           = match fst (download_video w video_id start end_ proxy st) with
             | Return (Some h) => [h]
             | _ => []
             end)
    /\ (forall h,
           fst (download_video w video_id start end_ proxy st) = Return (Some h)
           <-> (h = next_handle st
                /\ is_valid_id video_id = true
                /\ exists st_size,
                    ydl_download w h (video_url_of video_id)
                      (download_ranges_of start end_) proxy = Downloaded st_size
                    /\ st_size <> 0%N)).
Proof.
  intros video_id start end_ proxy st.
  destruct (is_valid_id video_id) eqn:Hv.
  - rewrite (download_video_valid_id w video_id start end_ proxy st Hv). cbn zeta.
    destruct (ydl_download w (next_handle st) (video_url_of video_id)
                (download_ranges_of start end_) proxy)
      as [message|message unlink_error|st_size] eqn:Hd.
    + split.
      * destruct (is_blocked_message message); [|destruct (is_fake_video_message message)];
          cbn [fst snd log]; eexists; (split; [flatten_log; reflexivity|]);
          unfold live, live_from; simpl; rewrite Nat.eqb_refl; reflexivity.
      * intros h. split.
        -- destruct (is_blocked_message message); [|destruct (is_fake_video_message message)];
             discriminate.
        -- intros (-> & _ & st_size & Hd' & _). congruence.
    + split.
      * cbn [fst snd log]; eexists; (split; [flatten_log; reflexivity|]).
        unfold live, live_from; simpl; rewrite Nat.eqb_refl; reflexivity.
      * intros h. split; [discriminate|].
        intros (-> & _ & st_size & Hd' & _). congruence.
    + destruct (st_size =? 0)%N eqn:Hz.
      * split.
        -- cbn [fst snd log]; eexists; (split; [flatten_log; reflexivity|]).
           unfold live, live_from; simpl; rewrite Nat.eqb_refl; reflexivity.
        -- intros h. split; [discriminate|].
           intros (-> & _ & st_size' & Hd' & Hne).
           apply N.eqb_eq in Hz. congruence.
      * split.
        -- cbn [fst snd log]; eexists; (split; [reflexivity|]). reflexivity.
        -- intros h. cbn [fst]. split.
           ++ intros [= <-]. repeat split; auto.
              exists st_size. split; [exact Hd|]. now apply N.eqb_neq.
           ++ intros (-> & _). reflexivity.
  - rewrite (download_video_invalid_id w video_id start end_ proxy st Hv). cbn [fst snd].
    split.
    + exists []. rewrite app_nil_r. split; reflexivity.
    + intros h. split; [discriminate|]. intros (_ & H & _). discriminate.
Qed.

(** X8. With a valid identifier and a provider that raises,
    [download_video] raises [IPBlockedException] exactly when the message
    holds one of the two blocking phrases somewhere, whatever else is in
    it. *)
Theorem download_video_blocked_iff_phrase :
  forall (video_id : option string) (start end_ : option Z)
         (proxy : option string) (st : state) (message : string),
    is_valid_id video_id = true ->
    ydl_download w (next_handle st) (video_url_of video_id)
      (download_ranges_of start end_) proxy = DownloadRaises message ->
    (fst (download_video w video_id start end_ proxy st)
     = Raise (IPBlockedException message)
     <-> ((exists pre post,
              message = pre ++ "Your IP is likely being blocked by Youtube" ++ post)
          \/ (exists pre post,
                 message = pre ++ "Requested format is not available" ++ post))).
Proof.
  intros video_id start end_ proxy st message Hv Hd.
  rewrite (download_video_valid_id w video_id start end_ proxy st Hv). cbn zeta.
  rewrite Hd.
  rewrite <- !contains_spec.
  unfold is_blocked_message.
  destruct (Py.contains "Your IP is likely being blocked by Youtube" message);
    destruct (Py.contains "Requested format is not available" message);
    cbn [orb fst]; try (split; [auto|reflexivity]).
  destruct (is_fake_video_message message); cbn [fst];
    (split; [discriminate|intros [H|H]; discriminate]).
Qed.

End DownloadVideoMore.

(** * Further properties of main.py *)

Section OrchestratorMore.

Variable w : World.

(** One iteration, outcome by outcome. *)
Lemma loop_body_run (r : YoutubeResult.t) (video_metas : list VideoMetadata.t)
    (st : state) :
  let now := time_time w (clock_reads st) in
  let h := next_handle st in
  let url := video_url_of (Some (YoutubeResult.video_id r)) in
  let rg := Some (0%Z, Z.min (YoutubeResult.length r) MAX_DURATION) in
  let ends (res : result (list VideoMetadata.t)) (evs : list event) :=
    (res, mkState (log st ++ EvTime now :: EvTempfile h :: EvDownload h url rg None :: evs)
                  (S h) (S (clock_reads st))) in
  loop_body w r video_metas st
  = if is_valid_id (Some (YoutubeResult.video_id r)) then
      match ydl_download w h url rg None with
      | DownloadRaises message =>
          if is_blocked_message message then
            ends (Raise (IPBlockedException message)) [EvClose h]
          else if is_fake_video_message message then
            ends (Raise (FakeVideoException message)) [EvClose h]
          else
            ends (Return video_metas)
                 [EvClose h; EvPrint ("Error downloading video: " ++ message)]
      | DownloadRemoves message unlink_error =>
          ends (Raise (Exception unlink_error)) [EvClose h]
      | Downloaded st_size =>
          if (st_size =? 0)%N then
            ends (Return video_metas)
                 [EvPrint ("Error downloading video: " ++ tempfile_name w h ++ " is empty");
                  EvClose h]
          else
            match imagebind_embed w (get_description r) h with
            | Raise e => ends (Raise e) [EvEmbed (get_description r) h; EvClose h]
            | Return embeddings =>
                match Embeddings.video embeddings, Embeddings.description embeddings with
                | video_emb :: _, description_emb :: _ =>
                    ends (Return
                            (video_metas ++
                             [VideoMetadata.mk (YoutubeResult.video_id r) (get_description r)
                                (YoutubeResult.views r) now (Py.float_of_int MAX_DURATION)
                                video_emb description_emb])%list)
                         [EvEmbed (get_description r) h; EvClose h]
                | _, _ =>
                    ends (Raise (Exception "index 0 is out of bounds for dimension 0 with size 0"))
                         [EvEmbed (get_description r) h; EvClose h]
                end
            end
      end
    else
      (Raise (FakeVideoException ("Invalid video ID: " ++ YoutubeResult.video_id r)),
       mkState (log st ++ [EvTime now]) h (S (clock_reads st))).
Proof.
  cbn zeta. unfold loop_body, time, bind.
  destruct (is_valid_id (Some (YoutubeResult.video_id r))) eqn:Hv.
  - rewrite (download_video_valid_id w _ _ _ _ _ Hv).
    cbn [log next_handle clock_reads download_ranges_of].
    destruct (ydl_download w _ _ _ _) as [message|message unlink_error|st_size].
    + destruct (is_blocked_message message); [|destruct (is_fake_video_message message)];
        flatten_log; reflexivity.
    + flatten_log. reflexivity.
    + destruct (st_size =? 0)%N; [flatten_log; reflexivity|].
      unfold embed_and_append, call_embed, first_row. run_monad.
      destruct (imagebind_embed w _ _) as [[video description]|ex];
        [destruct video as [|video_emb ?]; [|destruct description as [|description_emb ?]]|];
        cbn [Embeddings.video Embeddings.description log next_handle clock_reads];
        flatten_log; reflexivity.
  - rewrite (download_video_invalid_id w _ _ _ _ _ Hv). reflexivity.
Qed.

(** The run is the loop over what the search returned, started after the
    search and the report of its size. *)
Lemma search_and_embed_videos_unfold (query : string) (num_videos : Z) (st : state) :
  exists results st1,
    search_videos w query (request_count num_videos) st = (Return results, st1)
    /\ next_handle st1 = next_handle st
    /\ clock_reads st1 = clock_reads st
    /\ (exists prints,
           log st1 = (log st ++ EvExtractInfo (search_query_of (request_count num_videos) query)
                             :: prints)%list
           /\ Forall (fun ev => exists line, ev = EvPrint line) prints)
    /\ search_and_embed_videos w query num_videos st
       = for_result_in w num_videos results []
           (mkState (log st1 ++ [EvPrint ("search_results " ++ Py.str_of_nat (List.length results))])
                    (next_handle st1) (clock_reads st1)).
Proof.
  destruct (search_videos_never_raises w query (request_count num_videos) st)
    as (results & prints & E & Hprints).
  exists results. eexists. split; [exact E|].
  cbn [log next_handle clock_reads].
  split; [reflexivity|]. split; [reflexivity|]. split; [eauto|].
  unfold search_and_embed_videos. unfold bind at 1. rewrite E.
  unfold bind at 1. reflexivity.
Qed.

Lemma subseq_nil_l {A : Type} (l : list A) : subseq [] l.
Proof. induction l; constructor; assumption. Qed.

Lemma subseq_length {A : Type} (l1 l2 : list A) :
  subseq l1 l2 -> (List.length l1 <= List.length l2)%nat.
Proof. induction 1; simpl; lia. Qed.

Lemma for_result_in_subseq (num_videos : Z) (results : list YoutubeResult.t) :
  forall (video_metas : list VideoMetadata.t) (st : state),
    match fst (for_result_in w num_videos results video_metas st) with
    | Return out =>
        exists picked new,
          subseq picked results
          /\ out = (video_metas ++ new)%list
          /\ map (fun m => (VideoMetadata.video_id m, VideoMetadata.description m,
                            VideoMetadata.views m)) new
             = map (fun r => (YoutubeResult.video_id r, get_description r,
                              YoutubeResult.views r)) picked
    | Raise _ => True
    end.
Proof.
  induction results as [|r rest IH]; intros video_metas st.
  - cbn. exists [], []. rewrite app_nil_r. repeat split. constructor.
  - cbn [for_result_in]. unfold bind.
    destruct (loop_body_spec w r video_metas st) as (_ & _ & _ & _ & Hres).
    destruct (loop_body w r video_metas st) as [[video_metas'|ex] st1];
      cbn [fst snd] in *; [|exact I].
    destruct (Z.of_nat (List.length video_metas') =? num_videos)%Z.
    + cbn [fst ret]. destruct Hres as [->|(ve & de & ->)].
      * exists [], []. rewrite app_nil_r. repeat split. apply subseq_nil_l.
      * exists [r]. eexists. split; [apply subseq_take, subseq_nil_l|].
        split; reflexivity.
    + specialize (IH video_metas' st1).
      destruct (fst (for_result_in w num_videos rest video_metas' st1)) as [out|]; [|exact I].
      destruct IH as (picked & new & Hsub & -> & Hmap).
      destruct Hres as [->|(ve & de & ->)].
      * exists picked, new. repeat split; auto. now apply subseq_skip.
      * exists (r :: picked). eexists.
        split; [now apply subseq_take|].
        split; [rewrite <- app_assoc; reflexivity|].
        cbn. rewrite Hmap. reflexivity.
Qed.

(** X9. The records of a run that returns follow the provider's order:
    they come from candidates that the search returned, each candidate used
    at most once and none out of turn, and each record has the id, the
    synthesized description and the view count of its candidate.  So a run
    never returns more records than the search returned candidates. *)
Theorem records_follow_search_order :
  forall (query : string) (num_videos : Z) (st : state)
         (out : list VideoMetadata.t) (st' : state),
    search_and_embed_videos w query num_videos st = (Return out, st') ->
    exists results picked,
      fst (search_videos w query (request_count num_videos) st) = Return results
      /\ subseq picked results
      /\ map (fun m => (VideoMetadata.video_id m, VideoMetadata.description m,
                        VideoMetadata.views m)) out
         = map (fun r => (YoutubeResult.video_id r, get_description r,
                          YoutubeResult.views r)) picked
      /\ (List.length out <= List.length results)%nat.
Proof.
  intros query num_videos st out st' E.
  destruct (search_and_embed_videos_unfold query num_videos st)
    as (results & st1 & Hs & _ & _ & _ & Hrun).
  rewrite Hrun in E.
  match type of E with
  | for_result_in _ _ _ _ ?s = _ =>
      pose proof (for_result_in_subseq num_videos results [] s) as H
  end.
  rewrite E in H. cbn [fst] in H.
  destruct H as (picked & new & Hsub & -> & Hmap). cbn [app] in *.
  exists results, picked. rewrite Hs. repeat split; auto.
  apply subseq_length in Hsub.
  apply (f_equal (@List.length _)) in Hmap. rewrite !length_map in Hmap. lia.
Qed.

(** X10. When the search returns no candidate, because the provider
    failed, returned nothing, or returned an entry without id or title, the
    run reports 0 results and returns the empty list: it reads no clock
    and creates no file. *)
Theorem nothing_found_returns_empty :
  forall (query : string) (num_videos : Z) (st : state),
    fst (search_videos w query (request_count num_videos) st) = Return [] ->
    search_and_embed_videos w query num_videos st
    = (Return [],
       mkState (log (snd (search_videos w query (request_count num_videos) st))
                ++ [EvPrint "search_results 0"])
               (next_handle st) (clock_reads st)).
Proof.
  intros query num_videos st H.
  destruct (search_and_embed_videos_unfold query num_videos st)
    as (results & st1 & Hs & Hh & Hc & _ & Hrun).
  rewrite Hs in H. cbn [fst] in H. injection H as ->.
  rewrite Hrun, Hs, Hh, Hc. reflexivity.
Qed.

(** X11. The search asks for more candidates than the target only from a
    target of 2 on: for [0 <= num_videos < 2^51] the count requested is at
    least [num_videos], and above it exactly when [2 <= num_videos]. *)
Theorem request_count_overfetches_from_two :
  forall num_videos : Z,
    (0 <= num_videos < 2 ^ 51)%Z ->
    (num_videos <= request_count num_videos)%Z
    /\ ((num_videos < request_count num_videos)%Z <-> (2 <= num_videos)%Z).
Proof.
  intros num_videos [Hn _].
  rewrite request_count_quot, Z.quot_div_nonneg by lia.
  pose proof (Z.div_mod (3 * num_videos) 2 ltac:(lia)) as Hdm.
  pose proof (Z.mod_pos_bound (3 * num_videos) 2 ltac:(lia)) as Hb.
  lia.
Qed.

Lemma backed_app_l (evs1 evs2 : list event) (m : VideoMetadata.t) :
  backed w evs1 m -> backed w (evs1 ++ evs2) m.
Proof.
  intros (h & e & st_size & embeddings & Hd & Hr & Hne & He & Hrest).
  exists h, e, st_size, embeddings. cbn zeta in *.
  split; [apply in_or_app; auto|]. split; [exact Hr|]. split; [exact Hne|].
  split; [apply in_or_app; auto|]. exact Hrest.
Qed.

Lemma backed_app_r (evs1 evs2 : list event) (m : VideoMetadata.t) :
  backed w evs2 m -> backed w (evs1 ++ evs2) m.
Proof.
  intros (h & e & st_size & embeddings & Hd & Hr & Hne & He & Hrest).
  exists h, e, st_size, embeddings. cbn zeta in *.
  split; [apply in_or_app; auto|]. split; [exact Hr|]. split; [exact Hne|].
  split; [apply in_or_app; auto|]. exact Hrest.
Qed.

(** Split membership in an explicit stretch of log, dropping the events
    of another kind. *)
Ltac in_explicit H :=
  simpl in H;
  repeat (destruct H as [H|H]; [try discriminate H|]);
  try contradiction.

(** The downloads of one iteration and the record it adds. *)
Lemma loop_body_events (r : YoutubeResult.t) (video_metas : list VideoMetadata.t)
    (st : state) :
  exists evs,
    log (snd (loop_body w r video_metas st)) = (log st ++ evs)%list
    /\ (forall h u rg p,
          In (EvDownload h u rg p) evs ->
          u = video_url_of (Some (YoutubeResult.video_id r))
          /\ rg = Some (0%Z, Z.min (YoutubeResult.length r) MAX_DURATION)
          /\ p = None
          /\ forall message,
              ydl_download w h u rg p = DownloadRaises message ->
              (is_blocked_message message = true ->
               fst (loop_body w r video_metas st) = Raise (IPBlockedException message))
              /\ (is_blocked_message message = false ->
                  is_fake_video_message message = true ->
                  fst (loop_body w r video_metas st) = Raise (FakeVideoException message)))
    /\ match fst (loop_body w r video_metas st) with
       | Return video_metas' =>
           video_metas' = video_metas
           \/ exists m, video_metas' = (video_metas ++ [m])%list /\ backed w evs m
       | Raise _ => True
       end.
Proof.
  rewrite loop_body_run. cbn zeta.
  destruct (is_valid_id (Some (YoutubeResult.video_id r))).
  2:{ eexists. split; [reflexivity|]. split; [|exact I].
      intros h u rg p Hin. in_explicit Hin. }
  destruct (ydl_download w _ _ _ _) as [message|message unlink_error|st_size] eqn:Hd.
  - destruct (is_blocked_message message) eqn:Hb;
      [|destruct (is_fake_video_message message) eqn:Hf];
      cbn [fst snd log]; eexists; (split; [reflexivity|]);
      (split; [|auto]);
      intros h u rg p Hin; in_explicit Hin;
      injection Hin as <- <- <- <-;
      (split; [reflexivity|split; [reflexivity|split; [reflexivity|]]]);
      intros message' Hm; rewrite Hd in Hm; injection Hm as <-;
      split; intros; congruence.
  - cbn [fst snd log]; eexists; (split; [reflexivity|]). split; [|auto].
    intros h u rg p Hin; in_explicit Hin.
    injection Hin as <- <- <- <-.
    (split; [reflexivity|split; [reflexivity|split; [reflexivity|]]]).
    intros; congruence.
  - destruct (st_size =? 0)%N eqn:Hz.
    + cbn [fst snd log]; eexists; (split; [reflexivity|]). split; [|auto].
      intros h u rg p Hin; in_explicit Hin.
      injection Hin as <- <- <- <-.
      (split; [reflexivity|split; [reflexivity|split; [reflexivity|]]]).
      intros; congruence.
    + destruct (imagebind_embed w _ _) as [[video description]|ex] eqn:He;
        [destruct video as [|video_emb ?]; [|destruct description as [|description_emb ?]]|];
        cbn [fst snd log Embeddings.video Embeddings.description];
        eexists; (split; [reflexivity|]);
        (split;
         [intros h u rg p Hin; in_explicit Hin;
          injection Hin as <- <- <- <-;
          (split; [reflexivity|split; [reflexivity|split; [reflexivity|]]]);
          intros; congruence|]);
        try exact I.
      right. eexists. split; [reflexivity|].
      exists (next_handle st), (Z.min (YoutubeResult.length r) MAX_DURATION), st_size.
      eexists. cbn zeta. cbn [VideoMetadata.video_id VideoMetadata.description
                               VideoMetadata.video_emb VideoMetadata.description_emb].
      split; [simpl; auto|]. split; [exact Hd|].
      split; [now apply N.eqb_neq|].
      split; [simpl; auto|]. split; [exact He|]. split; reflexivity.
Qed.

(** The downloads of the loop and the records it adds. *)
Lemma for_result_in_events (num_videos : Z) (results : list YoutubeResult.t) :
  forall (video_metas : list VideoMetadata.t) (st : state),
  exists evs,
    log (snd (for_result_in w num_videos results video_metas st)) = (log st ++ evs)%list
    /\ (forall h u rg p,
          In (EvDownload h u rg p) evs ->
          (exists r,
              In r results
              /\ u = video_url_of (Some (YoutubeResult.video_id r))
              /\ rg = Some (0%Z, Z.min (YoutubeResult.length r) MAX_DURATION))
          /\ p = None
          /\ forall message,
              ydl_download w h u rg p = DownloadRaises message ->
              (is_blocked_message message = true ->
               fst (for_result_in w num_videos results video_metas st)
               = Raise (IPBlockedException message))
              /\ (is_blocked_message message = false ->
                  is_fake_video_message message = true ->
                  fst (for_result_in w num_videos results video_metas st)
                  = Raise (FakeVideoException message)))
    /\ match fst (for_result_in w num_videos results video_metas st) with
       | Return out => forall m, In m out -> In m video_metas \/ backed w evs m
       | Raise _ => True
       end.
Proof.
  induction results as [|r rest IH]; intros video_metas st.
  - exists []. cbn. rewrite app_nil_r. split; [reflexivity|].
    split; [intros h u rg p []|auto].
  - cbn [for_result_in]. unfold bind.
    destruct (loop_body_events r video_metas st) as (evs1 & Hlog1 & Hdl1 & Hres1).
    destruct (loop_body w r video_metas st) as [[video_metas'|ex] st1];
      cbn [fst snd] in *.
    + assert (Hrec : forall m, In m video_metas' -> In m video_metas \/ backed w evs1 m).
      { intros m Hm. destruct Hres1 as [->|(m0 & -> & Hb)]; [auto|].
        apply in_app_or in Hm. destruct Hm as [Hm|[<-|[]]]; auto. }
      destruct (Z.of_nat (List.length video_metas') =? num_videos)%Z.
      * exists evs1. cbn [fst snd ret]. split; [exact Hlog1|]. split; [|exact Hrec].
        intros h u rg p Hin. destruct (Hdl1 h u rg p Hin) as (-> & -> & -> & Hex).
        split; [exists r; simpl; auto|]. split; [reflexivity|].
        intros message Hm. destruct (Hex message Hm) as [H1 H2].
        split; intros; [discriminate H1|discriminate H2]; assumption.
      * destruct (IH video_metas' st1) as (evs2 & Hlog2 & Hdl2 & Hres2).
        exists (evs1 ++ evs2)%list.
        split; [rewrite Hlog2, Hlog1, app_assoc; reflexivity|].
        split.
        -- intros h u rg p Hin. apply in_app_or in Hin. destruct Hin as [Hin|Hin].
           ++ destruct (Hdl1 h u rg p Hin) as (-> & -> & -> & Hex).
              split; [exists r; simpl; auto|]. split; [reflexivity|].
              intros message Hm. destruct (Hex message Hm) as [H1 H2].
              split; intros; [discriminate H1|discriminate H2]; assumption.
           ++ destruct (Hdl2 h u rg p Hin) as ((r' & Hr' & Hu & Hrg) & Hp & Hex).
              split; [exists r'; simpl; auto|]. split; [exact Hp|exact Hex].
        -- destruct (fst (for_result_in w num_videos rest video_metas' st1)) as [out|];
             [|exact I].
           intros m Hm. destruct (Hres2 m Hm) as [Hin|Hb].
           ++ destruct (Hrec m Hin) as [?|Hb]; [auto|right; now apply backed_app_l].
           ++ right. now apply backed_app_r.
    + exists evs1. split; [exact Hlog1|]. split; [|exact I].
      intros h u rg p Hin. destruct (Hdl1 h u rg p Hin) as (-> & -> & -> & Hex).
      split; [exists r; simpl; auto|]. split; [reflexivity|exact Hex].
Qed.

(** The same for the whole run, whose log starts with the search and the
    prints around it. *)
Lemma search_and_embed_videos_events (query : string) (num_videos : Z) (st : state) :
  exists results pre evs,
    fst (search_videos w query (request_count num_videos) st) = Return results
    /\ log (snd (search_and_embed_videos w query num_videos st))
       = (log st ++ pre ++ evs)%list
    /\ (forall h u rg p, ~ In (EvDownload h u rg p) pre)
    /\ (forall h u rg p,
          In (EvDownload h u rg p) evs ->
          (exists r,
              In r results
              /\ u = video_url_of (Some (YoutubeResult.video_id r))
              /\ rg = Some (0%Z, Z.min (YoutubeResult.length r) MAX_DURATION))
          /\ p = None
          /\ forall message,
              ydl_download w h u rg p = DownloadRaises message ->
              (is_blocked_message message = true ->
               fst (search_and_embed_videos w query num_videos st)
               = Raise (IPBlockedException message))
              /\ (is_blocked_message message = false ->
                  is_fake_video_message message = true ->
                  fst (search_and_embed_videos w query num_videos st)
                  = Raise (FakeVideoException message)))
    /\ match fst (search_and_embed_videos w query num_videos st) with
       | Return out => forall m, In m out -> backed w evs m
       | Raise _ => True
       end.
Proof.
  destruct (search_and_embed_videos_unfold query num_videos st)
    as (results & st1 & Hs & _ & _ & (prints & Hlog1 & Hprints) & Hrun).
  rewrite Hrun.
  match goal with
  | |- context [for_result_in w num_videos results [] ?s] =>
      destruct (for_result_in_events num_videos results [] s)
        as (evs & Hlog & Hdl & Hres)
  end.
  cbn [log] in Hlog.
  exists results,
    (EvExtractInfo (search_query_of (request_count num_videos) query)
     :: prints ++ [EvPrint ("search_results " ++ Py.str_of_nat (List.length results))])%list,
    evs.
  rewrite Hs. split; [reflexivity|].
  split.
  { rewrite Hlog, Hlog1. repeat rewrite <- app_assoc. cbn [app].
    repeat rewrite <- app_assoc. reflexivity. }
  split.
  { intros h u rg p [E|Hin]; [discriminate|].
    apply in_app_or in Hin. destruct Hin as [Hin|[E|[]]]; [|discriminate].
    rewrite Forall_forall in Hprints. destruct (Hprints _ Hin) as [line E]. discriminate. }
  split; [exact Hdl|].
  destruct (fst (for_result_in w num_videos results [] _)) as [out|]; [|exact I].
  intros m Hm. destruct (Hres m Hm) as [[]|Hb]. exact Hb.
Qed.

(** X12. A download that the provider refuses with a blocking message, or
    with a message for a missing video, ends the whole run: when such a
    download is in the log of a run, the run raised the exception of that
    message and returned no record, the ones already built included. *)
Theorem classified_download_aborts_run :
  forall (query : string) (num_videos : Z) (st : state) (evs : list event)
         (h : handle) (u : string) (rg : option (Z * Z)) (p : option string)
         (message : string),
    log (snd (search_and_embed_videos w query num_videos st)) = (log st ++ evs)%list ->
    In (EvDownload h u rg p) evs ->
    ydl_download w h u rg p = DownloadRaises message ->
    (is_blocked_message message = true ->
     fst (search_and_embed_videos w query num_videos st)
     = Raise (IPBlockedException message))
    /\ (is_blocked_message message = false ->
        is_fake_video_message message = true ->
        fst (search_and_embed_videos w query num_videos st)
        = Raise (FakeVideoException message)).
Proof.
  intros query num_videos st evs h u rg p message Hlog Hin Hm.
  destruct (search_and_embed_videos_events query num_videos st)
    as (results & pre & evs' & _ & Hlog' & Hpre & Hdl & _).
  rewrite Hlog in Hlog'. apply app_inv_head in Hlog'. subst evs.
  apply in_app_or in Hin. destruct Hin as [Hin|Hin]; [now apply Hpre in Hin|].
  destruct (Hdl h u rg p Hin) as (_ & _ & Hex). now apply Hex.
Qed.

(** X13. Every download that a run issues is for a candidate that the
    search returned, at the watch address of its id, without proxy, and for
    the window from 0 to the smaller of the candidate's length and
    [MAX_DURATION]: no window ends after 120 seconds. *)
Theorem downloads_are_windowed :
  forall (query : string) (num_videos : Z) (st : state) (evs : list event)
         (h : handle) (u : string) (rg : option (Z * Z)) (p : option string),
    log (snd (search_and_embed_videos w query num_videos st)) = (log st ++ evs)%list ->
    In (EvDownload h u rg p) evs ->
    exists results r window_end,
      fst (search_videos w query (request_count num_videos) st) = Return results
      /\ In r results
      /\ u = "https://www.youtube.com/watch?v=" ++ YoutubeResult.video_id r
      /\ rg = Some (0%Z, window_end)
      /\ window_end = Z.min (YoutubeResult.length r) 120
      /\ (window_end <= 120)%Z
      /\ p = None.
Proof.
  intros query num_videos st evs h u rg p Hlog Hin.
  destruct (search_and_embed_videos_events query num_videos st)
    as (results & pre & evs' & Hs & Hlog' & Hpre & Hdl & _).
  rewrite Hlog in Hlog'. apply app_inv_head in Hlog'. subst evs.
  apply in_app_or in Hin. destruct Hin as [Hin|Hin]; [now apply Hpre in Hin|].
  destruct (Hdl h u rg p Hin) as ((r & Hr & -> & ->) & -> & _).
  exists results, r, (Z.min (YoutubeResult.length r) MAX_DURATION).
  unfold MAX_DURATION. repeat split; auto. lia.
Qed.

(** X14. Every record of a run that returns has behind it, in the log of
    that run, a download of its video that left a file that is not empty
    and an embedding of its description with that file; its two vectors are
    the first rows of what the embedding model returned. *)
Theorem records_are_backed :
  forall (query : string) (num_videos : Z) (st : state)
         (out : list VideoMetadata.t) (st' : state) (evs : list event),
    search_and_embed_videos w query num_videos st = (Return out, st') ->
    log st' = (log st ++ evs)%list ->
    Forall (backed w evs) out.
Proof.
  intros query num_videos st out st' evs E Hlog.
  destruct (search_and_embed_videos_events query num_videos st)
    as (results & pre & evs' & _ & Hlog' & _ & _ & Hres).
  rewrite E in Hlog', Hres. cbn [fst snd] in *.
  rewrite Hlog in Hlog'. apply app_inv_head in Hlog'. subst evs.
  apply Forall_forall. intros m Hm. apply backed_app_r. now apply Hres.
Qed.

Lemma loop_body_success (r : YoutubeResult.t) (video_metas : list VideoMetadata.t)
    (st : state) :
  is_valid_id (Some (YoutubeResult.video_id r)) = true ->
  (forall h u rg p, exists st_size,
        ydl_download w h u rg p = Downloaded st_size /\ st_size <> 0%N) ->
  (forall d h, exists v vs dv dvs,
        imagebind_embed w d h = Return (Embeddings.mk (v :: vs) (dv :: dvs))) ->
  exists m st',
    loop_body w r video_metas st = (Return (video_metas ++ [m])%list, st')
    /\ VideoMetadata.video_id m = YoutubeResult.video_id r
    /\ clock_reads st' = S (clock_reads st).
Proof.
  intros Hv Hd He. rewrite loop_body_run. cbn zeta. rewrite Hv.
  match goal with
  | |- context [ydl_download w ?h ?u ?rg ?p] =>
      destruct (Hd h u rg p) as (st_size & -> & Hne)
  end.
  apply N.eqb_neq in Hne. rewrite Hne.
  destruct (He (get_description r) (next_handle st)) as (v & vs & dv & dvs & ->).
  cbn [Embeddings.video Embeddings.description].
  eexists. eexists. split; [reflexivity|]. split; reflexivity.
Qed.

Lemma for_result_in_success (num_videos : Z) (results : list YoutubeResult.t) :
  (forall h u rg p, exists st_size,
        ydl_download w h u rg p = Downloaded st_size /\ st_size <> 0%N) ->
  (forall d h, exists v vs dv dvs,
        imagebind_embed w d h = Return (Embeddings.mk (v :: vs) (dv :: dvs))) ->
  Forall (fun r => is_valid_id (Some (YoutubeResult.video_id r)) = true) results ->
  forall (video_metas : list VideoMetadata.t) (st : state),
    (Z.of_nat (List.length video_metas) < num_videos)%Z ->
    exists new st',
      for_result_in w num_videos results video_metas st
      = (Return (video_metas ++ new)%list, st')
      /\ map VideoMetadata.video_id new
         = map YoutubeResult.video_id
             (firstn (Z.to_nat num_videos - List.length video_metas) results)
      /\ clock_reads st'
         = (clock_reads st
            + Nat.min (Z.to_nat num_videos - List.length video_metas)
                      (List.length results))%nat.
Proof.
  intros Hd He Hvalid.
  induction Hvalid as [|r rest Hv _ IH]; intros video_metas st Hlt.
  - exists [], st. cbn. rewrite app_nil_r, firstn_nil, Nat.min_0_r, Nat.add_0_r.
    repeat split.
  - destruct (loop_body_success r video_metas st Hv Hd He) as (m & st1 & E & Hid & Hck).
    cbn [for_result_in]. unfold bind. rewrite E.
    assert (Hlen : List.length (video_metas ++ [m]) = S (List.length video_metas)).
    { rewrite length_app. simpl. lia. }
    destruct (Z.of_nat (List.length (video_metas ++ [m])) =? num_videos)%Z eqn:Hstop.
    + apply Z.eqb_eq in Hstop.
      exists [m], st1. split; [reflexivity|].
      replace (Z.to_nat num_videos - List.length video_metas)%nat with 1%nat by lia.
      cbn. rewrite Hid, Hck. split; [reflexivity|lia].
    + apply Z.eqb_neq in Hstop.
      destruct (IH (video_metas ++ [m])%list st1) as (new & st' & E' & Hmap & Hck');
        [lia|].
      exists (m :: new), st'.
      split; [rewrite E', <- app_assoc; reflexivity|].
      replace (Z.to_nat num_videos - List.length video_metas)%nat
        with (S (Z.to_nat num_videos - List.length (video_metas ++ [m])))%nat by lia.
      cbn [firstn map List.length]. rewrite Hmap, Hid, Hck', Hck.
      split; [reflexivity|]. lia.
Qed.

(** X15. When every candidate has a valid id and every download and every
    embedding succeeds, a run with a target of at least 1 returns the
    records of the first [num_videos] candidates, in order, or of all of
    them when the search returned fewer; it reads the clock once per
    candidate used, so the candidates after the target are not touched. *)
Theorem all_succeed_takes_first :
  forall (query : string) (num_videos : Z) (st : state) (results : list YoutubeResult.t),
    (1 <= num_videos)%Z ->
    fst (search_videos w query (request_count num_videos) st) = Return results ->
    Forall (fun r => is_valid_id (Some (YoutubeResult.video_id r)) = true) results ->
    (forall h u rg p, exists st_size,
          ydl_download w h u rg p = Downloaded st_size /\ st_size <> 0%N) ->
    (forall d h, exists v vs dv dvs,
          imagebind_embed w d h = Return (Embeddings.mk (v :: vs) (dv :: dvs))) ->
    exists out st',
      search_and_embed_videos w query num_videos st = (Return out, st')
      /\ map VideoMetadata.video_id out
         = map YoutubeResult.video_id (firstn (Z.to_nat num_videos) results)
      /\ clock_reads st'
         = (clock_reads st + Nat.min (Z.to_nat num_videos) (List.length results))%nat.
Proof.
  intros query num_videos st results Hn Hs Hvalid Hd He.
  destruct (search_and_embed_videos_unfold query num_videos st)
    as (results' & st1 & Hs' & _ & Hc & _ & Hrun).
  rewrite Hs' in Hs. cbn [fst] in Hs. injection Hs as ->.
  rewrite Hrun.
  match goal with
  | |- context [for_result_in w num_videos results [] ?s] =>
      destruct (for_result_in_success num_videos results Hd He Hvalid [] s)
        as (new & st' & E & Hmap & Hck)
  end.
  { cbn. lia. }
  cbn [List.length app clock_reads] in *. rewrite Nat.sub_0_r in *.
  exists new, st'. rewrite E, Hmap, Hck, Hc. repeat split.
Qed.

Lemma loop_body_clock (r : YoutubeResult.t) (video_metas : list VideoMetadata.t)
    (st : state) :
  clock_reads (snd (loop_body w r video_metas st)) = S (clock_reads st)
  /\ (is_valid_id (Some (YoutubeResult.video_id r)) = false ->
      fst (loop_body w r video_metas st)
      = Raise (FakeVideoException ("Invalid video ID: " ++ YoutubeResult.video_id r))
      /\ next_handle (snd (loop_body w r video_metas st)) = next_handle st).
Proof.
  rewrite loop_body_run. cbn zeta.
  destruct (is_valid_id (Some (YoutubeResult.video_id r))).
  - split; [|discriminate].
    destruct (ydl_download w _ _ _ _) as [message|message unlink_error|st_size].
    + destruct (is_blocked_message message); [|destruct (is_fake_video_message message)];
        reflexivity.
    + reflexivity.
    + destruct (st_size =? 0)%N; [reflexivity|].
      destruct (imagebind_embed w _ _) as [[video description]|ex];
        [destruct video; [|destruct description]|]; reflexivity.
  - split; [reflexivity|]. intros _. split; reflexivity.
Qed.

Lemma for_result_in_processed (num_videos : Z) (results : list YoutubeResult.t) :
  forall (video_metas : list VideoMetadata.t) (st : state) (i : nat) (r : YoutubeResult.t),
    nth_error results i = Some r ->
    (i < clock_reads (snd (for_result_in w num_videos results video_metas st))
         - clock_reads st)%nat ->
    is_valid_id (Some (YoutubeResult.video_id r)) = false ->
    fst (for_result_in w num_videos results video_metas st)
    = Raise (FakeVideoException ("Invalid video ID: " ++ YoutubeResult.video_id r)).
Proof.
  induction results as [|r0 rest IH]; intros video_metas st i r Hnth Hi Hv.
  - destruct i; discriminate.
  - revert Hi. cbn [for_result_in]. unfold bind.
    destruct (loop_body_clock r0 video_metas st) as [Hck Hinv].
    destruct (loop_body w r0 video_metas st) as [[video_metas'|ex] st1];
      cbn [fst snd] in *.
    + destruct i as [|i]; cbn [nth_error] in Hnth.
      * injection Hnth as <-. destruct (Hinv Hv). discriminate.
      * destruct (Z.of_nat (List.length video_metas') =? num_videos)%Z.
        -- cbn [snd ret]. lia.
        -- intros Hi. apply (IH video_metas' st1 i r Hnth); [lia|exact Hv].
    + intros Hi. destruct i as [|i]; [|lia].
      injection Hnth as <-. now destruct (Hinv Hv).
Qed.

(** X16. A candidate with an id that is not valid ends the whole run
    when the loop gets to it: if the run read the clock more than [i]
    times, the loop reads it once per candidate, and candidate [i] of the
    search has an invalid id, then the run raised [FakeVideoException] for
    that id and returned no record. *)
Theorem invalid_id_aborts_run :
  forall (query : string) (num_videos : Z) (st : state)
         (results : list YoutubeResult.t) (i : nat) (r : YoutubeResult.t),
    fst (search_videos w query (request_count num_videos) st) = Return results ->
    nth_error results i = Some r ->
    (i < clock_reads (snd (search_and_embed_videos w query num_videos st))
         - clock_reads st)%nat ->
    is_valid_id (Some (YoutubeResult.video_id r)) = false ->
    fst (search_and_embed_videos w query num_videos st)
    = Raise (FakeVideoException ("Invalid video ID: " ++ YoutubeResult.video_id r)).
Proof.
  intros query num_videos st results i r Hs Hnth Hi Hv.
  destruct (search_and_embed_videos_unfold query num_videos st)
    as (results' & st1 & Hs' & _ & Hc & _ & Hrun).
  rewrite Hs' in Hs. cbn [fst] in Hs. injection Hs as ->.
  rewrite Hrun in *. rewrite <- Hc in Hi.
  exact (for_result_in_processed num_videos results [] _ i r Hnth Hi Hv).
Qed.

End OrchestratorMore.

(** * The further properties on sample runs *)

Section MoreSampleRuns.

Import Scenario.

(** Twelve complete entries give twelve candidates. *)
Lemma search_videos_keeps_order_witness :
  extract_info (all_succeed twelve) (search_query_of 12 "omega")
  = ExtractReturns (Some twelve)
  /\ Forall (fun e => Entry.id e <> None /\ Entry.title e <> None) twelve
  /\ exists videos,
      fst (search_videos (all_succeed twelve) "omega" 12 initial) = Return videos
      /\ List.length videos = List.length twelve.
Proof.
  assert (H : Forall (fun e => Entry.id e <> None /\ Entry.title e <> None) twelve).
  { repeat constructor; discriminate. }
  split; [reflexivity|]. split; [exact H|].
  destruct (search_videos_keeps_order (all_succeed twelve) "omega" 12 initial twelve
              eq_refl H) as (videos & Hv & Hl & _).
  exists videos. split; assumption.
Defined.

(** A complete entry followed by one without a title. *)
Lemma search_videos_missing_key_drops_all_witness :
  In untitled [candidate "omegavid001" 300; untitled]
  /\ Entry.title untitled = None
  /\ fst (search_videos (all_succeed [candidate "omegavid001" 300; untitled])
            "omega" 12 initial)
     = Return [].
Proof.
  split; [simpl; auto|]. split; [reflexivity|].
  destruct (search_videos_missing_key_drops_all
              (all_succeed [candidate "omegavid001" 300; untitled]) "omega" 12 initial
              [candidate "omegavid001" 300; untitled] untitled eq_refl)
    as (k & _ & E).
  - simpl. auto.
  - right. reflexivity.
  - rewrite E. reflexivity.
Defined.

(** An entry that lasts half a second gives a candidate of length 0. *)
Lemma search_videos_length_of_duration_witness :
  Entry.duration half_second = Some (Py.Float (1 # 2))
  /\ (0 < 1 # 2)%Q /\ (1 # 2 < 1)%Q
  /\ fst (search_videos (all_succeed [half_second]) "omega" 12 initial)
     = Return [YoutubeResult.mk "omegavid014" "clip omegavid014" None 0 5]
  /\ YoutubeResult.length (YoutubeResult.mk "omegavid014" "clip omegavid014" None 0 5)
     = 0%Z.
Proof.
  destruct (search_videos_length_of_duration (all_succeed [half_second]) "omega" 12
              initial [half_second]
              [YoutubeResult.mk "omegavid014" "clip omegavid014" None 0 5]
              0%nat half_second
              (YoutubeResult.mk "omegavid014" "clip omegavid014" None 0 5)
              eq_refl eq_refl eq_refl eq_refl) as [_ Hfloat].
  split; [reflexivity|]. split; [reflexivity|]. split; [reflexivity|].
  split; [reflexivity|].
  apply (Hfloat (1 # 2)); reflexivity.
Defined.

(** A message that also holds a phrase for a missing video. *)
Lemma download_video_blocked_iff_phrase_witness :
  is_valid_id (Some "omegavid001") = true
  /\ ydl_download (download_fails both_phrases) 0%nat (video_url_of (Some "omegavid001"))
       (download_ranges_of (Some 0%Z) (Some 120%Z)) None
     = DownloadRaises both_phrases
  /\ fst (download_video (download_fails both_phrases) (Some "omegavid001")
            (Some 0%Z) (Some 120%Z) None initial)
     = Raise (IPBlockedException both_phrases).
Proof.
  split; [reflexivity|]. split; [reflexivity|].
  apply (download_video_blocked_iff_phrase (download_fails both_phrases)
           (Some "omegavid001") (Some 0%Z) (Some 120%Z) None initial both_phrases
           eq_refl eq_refl).
  right. exists "ERROR: [youtube] omegavid001: Video unavailable. ", "". reflexivity.
Defined.

(** The run of [main.py] returns no more records than the search
    returned candidates. *)
Lemma records_follow_search_order_witness :
  main_run = (Return (returned main_run), snd main_run)
  /\ exists results,
      fst (search_videos (all_succeed twelve) "omega" (request_count 8) initial)
      = Return results
      /\ (List.length (returned main_run) <= List.length results)%nat.
Proof.
  assert (E : search_and_embed_videos (all_succeed twelve) "omega" 8 initial
              = (Return (returned main_run), snd main_run))
    by (vm_compute; reflexivity).
  split; [exact E|].
  pose proof (records_follow_search_order (all_succeed twelve) "omega" 8 initial
                (returned main_run) (snd main_run) E) as H.
  destruct H as (results & picked & Hs & _ & _ & Hl).
  exists results. split; assumption.
Defined.

(** A provider that fails gives an empty run. *)
Lemma nothing_found_returns_empty_witness :
  fst (search_videos search_fails "omega" (request_count 8) initial) = Return []
  /\ fst (search_and_embed_videos search_fails "omega" 8 initial) = Return [].
Proof.
  split; [reflexivity|].
  rewrite (nothing_found_returns_empty search_fails "omega" 8 initial); reflexivity.
Defined.

(** The target of [main.py]. *)
Lemma request_count_overfetches_from_two_witness :
  (0 <= 8 < 2 ^ 51)%Z /\ (8 < request_count 8)%Z.
Proof.
  split; [lia|].
  apply (request_count_overfetches_from_two 8); lia.
Defined.

(** The first download of a run whose downloads are refused. *)
Lemma classified_download_aborts_run_witness :
  In (EvDownload 0%nat "https://www.youtube.com/watch?v=omegavid001"
        (Some (0%Z, 120%Z)) None)
     (log (snd blocked_run))
  /\ is_blocked_message both_phrases = true
  /\ fst blocked_run = Raise (IPBlockedException both_phrases).
Proof.
  assert (Hin : In (EvDownload 0%nat "https://www.youtube.com/watch?v=omegavid001"
                      (Some (0%Z, 120%Z)) None)
                   (log (snd blocked_run))).
  { vm_compute. do 4 right. left. reflexivity. }
  split; [exact Hin|]. split; [reflexivity|].
  apply (classified_download_aborts_run (download_fails both_phrases) "omega" 8 initial
           (log (snd blocked_run)) 0%nat "https://www.youtube.com/watch?v=omegavid001"
           (Some (0%Z, 120%Z)) None both_phrases);
    [reflexivity|exact Hin|reflexivity|reflexivity].
Defined.

(** The third download of the run of [main.py]. *)
Lemma downloads_are_windowed_witness :
  In (EvDownload 2%nat "https://www.youtube.com/watch?v=omegavid003"
        (Some (0%Z, 50%Z)) None)
     (log (snd main_run))
  /\ exists window_end,
      Some (0%Z, 50%Z) = Some (0%Z, window_end) /\ (window_end <= 120)%Z.
Proof.
  assert (Hin : In (EvDownload 2%nat "https://www.youtube.com/watch?v=omegavid003"
                      (Some (0%Z, 50%Z)) None)
                   (log (snd main_run))).
  { vm_compute. do 14 right. left. reflexivity. }
  split; [exact Hin|].
  destruct (downloads_are_windowed (all_succeed twelve) "omega" 8 initial
              (log (snd main_run)) 2%nat "https://www.youtube.com/watch?v=omegavid003"
              (Some (0%Z, 50%Z)) None eq_refl Hin)
    as (results & r & window_end & _ & _ & _ & Hrg & _ & Hle & _).
  exists window_end. split; assumption.
Defined.

(** The eight records of the run of [main.py]. *)
Lemma records_are_backed_witness :
  main_run = (Return (returned main_run), snd main_run)
  /\ Forall (backed (all_succeed twelve) (log (snd main_run))) (returned main_run).
Proof.
  assert (E : search_and_embed_videos (all_succeed twelve) "omega" 8 initial
              = (Return (returned main_run), snd main_run))
    by (vm_compute; reflexivity).
  split; [exact E|].
  apply (records_are_backed (all_succeed twelve) "omega" 8 initial
           (returned main_run) (snd main_run) (log (snd main_run)) E).
  vm_compute. reflexivity.
Defined.

(** The run of [main.py]: twelve candidates, a target of 8. *)
Lemma all_succeed_takes_first_witness :
  (1 <= 8)%Z
  /\ exists out st',
      search_and_embed_videos (all_succeed twelve) "omega" 8 initial = (Return out, st')
      /\ map VideoMetadata.video_id out
         = ["omegavid001"; "omegavid002"; "omegavid003"; "omegavid004";
            "omegavid005"; "omegavid006"; "omegavid007"; "omegavid008"]
      /\ clock_reads st' = 8%nat.
Proof.
  split; [lia|].
  destruct (all_succeed_takes_first (all_succeed twelve) "omega" 8 initial
              (returned (search_videos (all_succeed twelve) "omega" (request_count 8) initial)))
    as (out & st' & E & Hmap & Hck).
  - lia.
  - vm_compute. reflexivity.
  - vm_compute. repeat constructor.
  - intros h u rg p. exists 4096%N. split; [reflexivity|discriminate].
  - intros d h. exists [1#2; 1#4], [], [1#8; 1#16], []. reflexivity.
  - exists out, st'. split; [exact E|]. split; [exact Hmap|exact Hck].
Defined.

(** A first candidate whose id has five characters. *)
Lemma invalid_id_aborts_run_witness :
  is_valid_id (Some "omega") = false
  /\ (0 < clock_reads (snd invalid_run) - clock_reads initial)%nat
  /\ fst invalid_run = Raise (FakeVideoException "Invalid video ID: omega").
Proof.
  split; [reflexivity|]. split; [vm_compute; lia|].
  apply (invalid_id_aborts_run (all_succeed [short_id; candidate "omegavid001" 300])
           "omega" 8 initial
           [YoutubeResult.mk "omega" "clip omega" None 40 5;
            YoutubeResult.mk "omegavid001" "clip omegavid001" None 300 1000]
           0%nat (YoutubeResult.mk "omega" "clip omega" None 40 5)).
  - reflexivity.
  - reflexivity.
  - vm_compute. lia.
  - reflexivity.
Defined.

End MoreSampleRuns.
